(** * The bank market-capitalisation pipeline of [etl_bank_project.py]

    A shallow embedding of the stages [extract], [transform],
    [load_to_csv], [load_to_db], [run_queries], [verify_logs] and of
    [main], with the properties of the pipeline proved about it.

    Python values that the program shares and mutates (the DataFrame)
    live in a heap and are passed by reference; the outside world (the
    web page, the rate file, the output file, the database, the log
    and the console) is a record threaded through every stage;
    exceptions are results of their own, caught by [try_except]. *)

From Stdlib Require Import ZArith Ascii Floats.SpecFloat.
From stdpp Require Import gmap strings list fin_maps.

Local Open Scope Z_scope.

(** ** Binary64 numbers

    pandas holds both market-cap columns and the rates as float64;
    a missing value is NaN.  The arithmetic is that of IEEE 754,
    round to nearest, ties to even. *)
Definition float : Type := spec_float.

Module F64.

Definition prec : Z := 53.
Definition emax : Z := 1024.

Definition nan : float := S754_nan.
Definition mul : float -> float -> float := SFmul prec emax.
Definition div : float -> float -> float := SFdiv prec emax.
Definition add : float -> float -> float := SFadd prec emax.
Definition ltb : float -> float -> bool := SFltb.
Definition eqb : float -> float -> bool := SFeqb.

Definition is_nan (x : float) : bool :=
  match x with S754_nan => true | _ => false end.

(** The float nearest to the integer [n]. *)
Definition of_Z (n : Z) : float := binary_normalize prec emax n 0 false.

(** The float nearest to the fraction [n / d], as a decimal literal
    such as [0.93] is read; [neg] is the sign of the literal. *)
Definition of_ratio (neg : bool) (n : N) (d : positive) : float :=
  let '(q, e, l) := SFdiv_core_binary prec emax (Z.of_N n) 0 (Zpos d) 0 in
  binary_round_aux prec emax neg q e l.

(** [n / 10^k], the value of a decimal literal with [k] digits after
    the point. *)
Definition dec (n : Z) (k : nat) : float :=
  of_ratio (n <? 0) (Z.abs_N n) (Z.to_pos (10 ^ Z.of_nat k)).

(** C's [rint]: the nearest integer, ties to even, the sign kept. *)
Definition rint (x : float) : float :=
  match x with
  | S754_finite s m e =>
      if 0 <=? e then x
      else
        let '(mrs, _) := shr (shr_record_of_loc (Zpos m) loc_Exact) e (- e) in
        let n := round_nearest_even (shr_m mrs) (loc_of_shr_record mrs) in
        binary_normalize prec emax (cond_Zopp s n) 0 s
  | _ => x
  end.

Definition hundred : float := of_Z 100.

(** [numpy.round(x, 2)], which [Series.round(2)] applies to a float64
    column: scale by [10**2], [rint], scale back. *)
Definition round2 (x : float) : float := div (rint (mul x hundred)) hundred.

End F64.

(** ** Extended precision

    C's [long double] on the x87: a significand of 64 bits.  SQLite
    prints and reads floating-point text in it. *)
Module F80.

Definition prec : Z := 64.
Definition emax : Z := 16384.

Definition mul : float -> float -> float := SFmul prec emax.
Definition div : float -> float -> float := SFdiv prec emax.
Definition add : float -> float -> float := SFadd prec emax.
Definition sub : float -> float -> float := SFsub prec emax.
Definition ltb : float -> float -> bool := SFltb.

Definition of_Z (n : Z) : float := binary_normalize prec emax n 0 false.

(** A double as a [long double]: the same number. *)
Definition of_double (x : float) : float :=
  match x with
  | S754_finite s m e => binary_normalize prec emax (cond_Zopp s (Zpos m)) e s
  | _ => x
  end.

(** The double nearest to a [long double]. *)
Definition to_double (x : float) : float :=
  match x with
  | S754_finite s m e =>
      binary_normalize F64.prec F64.emax (cond_Zopp s (Zpos m)) e s
  | _ => x
  end.

(** [(int)x] for an [x] that is not negative. *)
Definition to_int (x : float) : Z :=
  match x with
  | S754_finite false m e =>
      if 0 <=? e then Zpos m * 2 ^ e else Zpos m / 2 ^ (- e)
  | _ => 0
  end.

End F80.

(** ** Text

    The three string operations the program applies to cell and header
    text: [x in s], [s.strip()] and [s.replace(',', '')].  The text of
    a [str] is held in UTF-8. *)
Module Text.

(** Python's [p in s] on strings. *)
Fixpoint contains (p s : string) : bool :=
  String.prefix p s ||
  match s with
  | "" => false
  | String _ s' => contains p s'
  end.

(** The characters of [str.isspace], by their bytes: the six of ASCII
    and U+001C to U+001F; U+0085 and U+00A0; U+1680, U+2000 to U+200A,
    U+2028, U+2029, U+202F, U+205F and U+3000. *)
Definition space1 (c : ascii) : bool :=
  let n := N_of_ascii c in
  ((9 <=? n) && (n <=? 13) || (28 <=? n) && (n <=? 32))%N.

Definition space2 (c1 c2 : ascii) : bool :=
  let n := N_of_ascii c2 in
  ((N_of_ascii c1 =? 194) && ((n =? 133) || (n =? 160)))%N.

Definition space3 (c1 c2 c3 : ascii) : bool :=
  let n := N_of_ascii c3 in
  match N_of_ascii c1, N_of_ascii c2 with
  | 225, 154 => (n =? 128)
  | 226, 128 =>
      (128 <=? n) && (n <=? 138) || (n =? 168) || (n =? 169) || (n =? 175)
  | 226, 129 => (n =? 159)
  | 227, 128 => (n =? 128)
  | _, _ => false
  end%N.

(** The text without the white space it begins with; the tests take
    the bytes of a character in the order in which they are met. *)
Fixpoint lstrip_with (sp1 : ascii → bool) (sp2 : ascii → ascii → bool)
    (sp3 : ascii → ascii → ascii → bool) (s : string) : string :=
  match s with
  | "" => ""
  | String c1 s1 =>
      if sp1 c1 then lstrip_with sp1 sp2 sp3 s1
      else
        match s1 with
        | "" => s
        | String c2 s2 =>
            if sp2 c1 c2 then lstrip_with sp1 sp2 sp3 s2
            else
              match s2 with
              | "" => s
              | String c3 s3 =>
                  if sp3 c1 c2 c3 then lstrip_with sp1 sp2 sp3 s3 else s
              end
        end
  end.

Definition lstrip (s : string) : string := lstrip_with space1 space2 space3 s.

(** From the end the bytes of a character are met last first. *)
Definition rstrip (s : string) : string :=
  String.rev
    (lstrip_with space1 (λ c2 c1, space2 c1 c2) (λ c3 c2 c1, space3 c1 c2 c3)
       (String.rev s)).

Definition strip (s : string) : string := rstrip (lstrip s).

(** [s.replace(',', '')]. *)
Fixpoint replace_comma (s : string) : string :=
  match s with
  | "" => ""
  | String c s' =>
      if Ascii.eqb c ","%char then replace_comma s' else String c (replace_comma s')
  end.

End Text.

(** ** Exceptions

    The exceptions of class [Exception], which are those that the
    handlers of the program catch. *)

Record exn := Exception { exn_class : string; exn_str : string }.

Inductive result (A : Type) : Type :=
| Return (a : A)
| Raise (e : exn).
Arguments Return {A} a.
Arguments Raise {A} e.

Definition KeyError (k : string) : exn := Exception "KeyError" k.
Definition ValueError (m : string) : exn := Exception "ValueError" m.

(** ** The Dataset

    The DataFrame that [extract] builds and [transform] enriches: the
    two extracted columns, and the three converted columns once they
    have been assigned. *)
Record DataFrame := {
  Name : list string;
  MC_USD_Billion : list float;
  MC_GBP_Billion : option (list float);
  MC_EUR_Billion : option (list float);
  MC_INR_Billion : option (list float)
}.

(** ** The relational store

    The table [Largest_banks] and the three queries of [run_queries],
    as SQLite evaluates them on REAL columns.  [DataFrame.to_sql]
    writes NaN as NULL. *)
Module Sql.

(** A cell of a REAL column: NULL or a number. *)
Definition real : Type := option float.

Definition of_float (x : float) : real :=
  if F64.is_nan x then None else Some x.

Definition of_column (col : list float) : list real := of_float <$> col.

Record table := {
  Name : list string;
  MC_USD_Billion : list real;
  MC_GBP_Billion : option (list real);
  MC_EUR_Billion : option (list real);
  MC_INR_Billion : option (list real)
}.

(** The values an aggregate sees: NULLs are skipped. *)
Definition values (col : list real) : list float := omap id col.

(** The running sum of [AVG], in double precision from the left. *)
Definition total (vs : list float) : float := foldl F64.add (F64.of_Z 0) vs.

Definition AVG (col : list real) : real :=
  match values col with
  | [] => None
  | vs => of_float (F64.div (total vs) (F64.of_Z (Z.of_nat (length vs))))
  end.

Definition MAX (col : list real) : real :=
  match values col with
  | [] => None
  | v :: vs => Some (foldl (λ best x, if F64.ltb best x then x else best) v vs)
  end.

Definition MIN (col : list real) : real :=
  match values col with
  | [] => None
  | v :: vs => Some (foldl (λ best x, if F64.ltb x best then x else best) v vs)
  end.

(** [a / b]: NULL when an operand is NULL or the divisor is zero. *)
Definition div (a b : real) : real :=
  match a, b with
  | Some x, Some y =>
      if F64.eqb y (F64.of_Z 0) then None else of_float (F64.div x y)
  | _, _ => None
  end.

Definition mul (a b : real) : real :=
  match a, b with
  | Some x, Some y => of_float (F64.mul x y)
  | _, _ => None
  end.

(** *** [ROUND(x, 2)]

    SQLite 3.40 prints the number with ["%.2f"] and reads the text
    back.  Its own [printf] works in extended precision: it adds half
    a hundredth and, below [2^39], three parts in [10^16] of the
    number, scales the sum into [1, 10) and takes off decimal digits
    one by one, sixteen at most. *)
Module Printf.

(** The constants of the code; those written as doubles there are
    doubles here. *)
Definition arRound2 : float := F80.of_double (F64.dec 5 3).
Definition c3e_16 : float := F80.of_double (F64.dec 3 16).
Definition c1e100 : float := F80.of_double (F64.dec (10 ^ 100) 0).
Definition c1e10 : float := F80.of_Z (10 ^ 10).
Definition c1e8 : float := F80.of_Z (10 ^ 8).
Definition c1e_8 : float := F80.of_double (F64.dec 1 8).
Definition ten : float := F80.of_Z 10.
Definition one : float := F80.of_Z 1.

(** The exponent field of a double, less the bias. *)
Definition exponent (x : float) : Z :=
  match x with
  | S754_finite _ m e => Z.max (-1023) (Zdigits2 (Zpos m) + e - 1)
  | _ => -1023
  end.

(** [while( realvalue>=step*scale && exp<=350 ){ scale *= step; exp+=inc; }];
    [exp] grows with every turn, so that [352] turns are never used up. *)
Fixpoint scale_up (turns : nat) (step : float) (inc : Z)
    (realvalue scale : float) (exp : Z) : float * Z :=
  match turns with
  | O => (scale, exp)
  | S turns' =>
      if negb (F80.ltb realvalue (F80.mul step scale)) && (exp <=? 350)
      then scale_up turns' step inc realvalue (F80.mul scale step) (exp + inc)
      else (scale, exp)
  end.

(** [while( realvalue<bound ){ realvalue *= step; exp-=dec; }]; the
    smallest positive [long double] is above [10^-4951]. *)
Fixpoint scale_down (turns : nat) (bound step : float) (dec : Z)
    (realvalue : float) (exp : Z) : float * Z :=
  match turns with
  | O => (realvalue, exp)
  | S turns' =>
      if F80.ltb realvalue bound
      then scale_down turns' bound step dec (F80.mul realvalue step) (exp - dec)
      else (realvalue, exp)
  end.

(** [et_getdigit]: the next digit of [val], which is left holding the
    rest times ten; past [cnt] significant digits the digit is 0. *)
Definition et_getdigit (st : float * Z) : Z * (float * Z) :=
  let '(val, cnt) := st in
  if cnt <=? 0 then (0, st)
  else
    let digit := F80.to_int val in
    (digit, (F80.mul (F80.sub val (F80.of_Z digit)) ten, cnt - 1)).

(** [n] more digits after those of [acc]. *)
Fixpoint digits (n : nat) (acc : Z) (st : float * Z) : Z * (float * Z) :=
  match n with
  | O => (acc, st)
  | S n' =>
      let '(d, st') := et_getdigit st in
      digits n' (10 * acc + d) st'
  end.

(** The text of ["%.2f"] for a double that is not negative, as the
    number of hundredths it denotes. *)
Definition hundredths (x : float) : Z :=
  let realvalue := F80.of_double x in
  let rounder :=
    if 2 + Z.quot (exponent x) 3 <? 15
    then F80.of_double
           (F80.to_double (F80.add arRound2 (F80.mul realvalue c3e_16)))
    else arRound2 in
  let realvalue := F80.add realvalue rounder in
  let '(realvalue, exp) :=
    if F80.ltb (F80.of_Z 0) realvalue then
      let '(scale, exp) := scale_up 352 c1e100 100 realvalue one 0 in
      let '(scale, exp) := scale_up 352 c1e10 10 realvalue scale exp in
      let '(scale, exp) := scale_up 352 ten 1 realvalue scale exp in
      let realvalue := F80.div realvalue scale in
      let '(realvalue, exp) := scale_down 640 c1e_8 c1e8 8 realvalue exp in
      scale_down 5000 one ten 1 realvalue exp
    else (realvalue, 0) in
  let st := (realvalue, 16) in
  let '(int_part, st) :=
    if exp <? 0 then (0, st) else digits (Z.to_nat (exp + 1)) 0 st in
  let zeros := if exp <? 0 then - exp - 1 else 0 in
  (digits (Z.to_nat (2 - zeros)) int_part st).1.

(** [sqlite3AtoF] on a text of hundredths: final zeros of the
    significand are dropped against the exponent, and what is left is
    divided by the power of ten in extended precision. *)
Fixpoint reduce (e : nat) (s : Z) : Z * nat :=
  match e with
  | O => (s, O)
  | S e' => if s mod 10 =? 0 then reduce e' (s / 10) else (s, e)
  end.

Definition AtoF (neg : bool) (hundredths : Z) : float :=
  if hundredths =? 0 then S754_zero neg
  else
    let '(s, e) := reduce 2 hundredths in
    let s := cond_Zopp neg s in
    match e with
    | O => F64.of_Z s
    | _ => F80.to_double (F80.div (F80.of_Z s) (F80.of_Z (10 ^ Z.of_nat e)))
    end.

End Printf.

(** [ROUND(x, 2)]: a number beyond [2^52] has no fraction and is kept;
    any other is printed with two decimals and read back. *)
Definition round2 (x : float) : float :=
  match x with
  | S754_zero _ => Printf.AtoF false (Printf.hundredths x)
  | S754_finite s m e =>
      if F64.ltb (F64.of_Z (2 ^ 52)) (SFabs x) then x
      else Printf.AtoF s (Printf.hundredths (SFabs x))
  | _ => x
  end.

Definition ROUND2 (x : real) : real := round2 <$> x.

Record query1_row := {
  Average_MC_EUR : real;
  Max_MC_EUR : real;
  Min_MC_EUR : real;
  Max_to_Min_Ratio : real
}.

Record query2_row := {
  Avg_EUR : real;
  Avg_USD : real;
  Avg_GBP : real;
  Avg_INR : real
}.

Record query3_row := {
  q3_Name : string;
  q3_MC_EUR_Billion : real;
  Percent_of_Largest : real
}.

Definition no_such_table : exn :=
  Exception "DatabaseError" "no such table: Largest_banks".
Definition no_such_column (c : string) : exn :=
  Exception "DatabaseError" ("no such column: " +:+ c).

(** A column named in a query must exist in the table. *)
Definition column (c : string) (col : option (list real)) : result (list real) :=
  match col with
  | Some l => Return l
  | None => Raise (no_such_column c)
  end.

Definition query1 (t : table) : result query1_row :=
  match column "MC_EUR_Billion" (MC_EUR_Billion t) with
  | Return eur =>
      Return {| Average_MC_EUR := ROUND2 (AVG eur);
                Max_MC_EUR := ROUND2 (MAX eur);
                Min_MC_EUR := ROUND2 (MIN eur);
                Max_to_Min_Ratio := ROUND2 (div (MAX eur) (MIN eur)) |}
  | Raise e => Raise e
  end.

Definition query2 (t : table) : result query2_row :=
  match column "MC_EUR_Billion" (MC_EUR_Billion t),
        column "MC_GBP_Billion" (MC_GBP_Billion t),
        column "MC_INR_Billion" (MC_INR_Billion t) with
  | Return eur_col, Return gbp_col, Return inr_col =>
      Return {| Avg_EUR := ROUND2 (AVG eur_col);
                Avg_USD := ROUND2 (AVG (MC_USD_Billion t));
                Avg_GBP := ROUND2 (AVG gbp_col);
                Avg_INR := ROUND2 (AVG inr_col) |}
  | Raise e, _, _ | _, Raise e, _ | _, _, Raise e => Raise e
  end.

(** [a] sorts before [b] under [ORDER BY ... DESC]: NULL is the
    least value and comes last. *)
Definition before_desc (a b : real) : bool :=
  match a, b with
  | _, None => true
  | None, Some _ => false
  | Some x, Some y => negb (F64.ltb x y)
  end.

Fixpoint insert_desc (r : query3_row) (rows : list query3_row) : list query3_row :=
  match rows with
  | [] => [r]
  | r' :: rows' =>
      if before_desc (q3_MC_EUR_Billion r) (q3_MC_EUR_Billion r')
      then r :: rows
      else r' :: insert_desc r rows'
  end.

Definition order_desc (rows : list query3_row) : list query3_row :=
  foldr insert_desc [] rows.

Definition query3 (t : table) : result (list query3_row) :=
  match column "MC_EUR_Billion" (MC_EUR_Billion t) with
  | Return eur =>
      let max_mc := MAX eur in
      Return (order_desc
        (zip_with (λ n x,
           {| q3_Name := n;
              q3_MC_EUR_Billion := x;
              Percent_of_Largest :=
                ROUND2 (mul (div x max_mc) (Some (F64.of_Z 100))) |})
           (Name t) eur))
  | Raise e => Raise e
  end.

Record results := {
  Market_Cap_Analysis : query1_row;
  Average_by_Currency : query2_row;
  Bank_Size_Comparison : list query3_row
}.

End Sql.

(** What [to_sql] stores for a DataFrame. *)
Definition sql_table (d : DataFrame) : Sql.table :=
  {| Sql.Name := Name d;
     Sql.MC_USD_Billion := Sql.of_column (MC_USD_Billion d);
     Sql.MC_GBP_Billion := Sql.of_column <$> MC_GBP_Billion d;
     Sql.MC_EUR_Billion := Sql.of_column <$> MC_EUR_Billion d;
     Sql.MC_INR_Billion := Sql.of_column <$> MC_INR_Billion d |}.

(** ** The web page

    What [requests.get] and the two HTML parsers give the program: the
    [<table>] elements of the page in document order, each with its
    class attribute, the text of its [<th>] cells, and the frame that
    [pd.read_html] builds from it (or the exception it raises).  The
    cells of a frame are held as [astype(str)] renders them. *)
Module Html.

Inductive index :=
| Index (labels : list string)
| MultiIndex (tuples : list (list string)).

Record frame := { columns : index; data : list (list string) }.

Record table := {
  classes : list string;
  th : list string;
  read_html : result frame
}.

(** [columns.get_level_values(-1)] on a MultiIndex; a flat index is
    left as it is. *)
Definition innermost (i : index) : list string :=
  match i with
  | Index labels => labels
  | MultiIndex tuples => (λ t, default "" (last t)) <$> tuples
  end.

(** The columns of [df[[key]]]: every column labelled [key]. *)
Definition labelled (key : string) (f : list string) (d : list (list string))
  : list (list string) :=
  omap (λ p, if decide (p.1 = key) then Some p.2 else None) (zip f d).

End Html.

(** The rate file as [pd.read_csv] gives it: the two columns the
    program reads, when the file has them. *)
Record rates := { Currency : option (list string); Rate : option (list float) }.

(** ** The log and the console *)

Inductive log_record :=
| info (message : string)
| info_columns (columns : Html.index)
| info_missing (missing : gset string)
| info_rates (eur gbp inr_ : float)
| info_error (context : string) (e : exn).

Inductive output :=
| out_text (s : string)
| out_query1 (df : Sql.query1_row)
| out_query2 (df : Sql.query2_row)
| out_query3 (df : list Sql.query3_row)
| out_log (contents : list log_record)
| out_error (context : string) (e : exn).

(** ** The world a run sees and changes *)

(** A DataFrame is a Python object: the program holds references. *)
Definition ref : Type := nat.

Record world := World {
  (** [requests.get(WIKIPEDIA_URL)] and the parse of its body *)
  page : result (list Html.table);
  (** [pd.read_csv(EXCHANGE_RATES_CSV)] *)
  exchange_rate_csv : result rates;
  (** the faults of the file system and the database engine: each
      call to one of them takes the next entry; none left, no fault *)
  io_faults : list (option exn);
  (** the DataFrame objects allocated so far *)
  heap : list DataFrame;
  (** the file at [CSV_OUTPUT_PATH] *)
  Largest_banks_data_csv : option DataFrame;
  (** the table [Largest_banks] of [DATABASE_PATH] *)
  Banks_db : option Sql.table;
  (** [code_log.txt] *)
  code_log : list log_record;
  (** what [print] has written to standard output *)
  console : list output;
  (** the faults of standard output: each [print] takes the next
      entry; none left, no fault *)
  stdout_faults : list (option exn)
}.

Definition with_io_faults (fs : list (option exn)) (w : world) : world :=
  World (page w) (exchange_rate_csv w) fs (heap w)
        (Largest_banks_data_csv w) (Banks_db w) (code_log w) (console w)
        (stdout_faults w).
Definition with_heap (h : list DataFrame) (w : world) : world :=
  World (page w) (exchange_rate_csv w) (io_faults w) h
        (Largest_banks_data_csv w) (Banks_db w) (code_log w) (console w)
        (stdout_faults w).
Definition with_csv (f : option DataFrame) (w : world) : world :=
  World (page w) (exchange_rate_csv w) (io_faults w) (heap w)
        f (Banks_db w) (code_log w) (console w) (stdout_faults w).
Definition with_db (t : option Sql.table) (w : world) : world :=
  World (page w) (exchange_rate_csv w) (io_faults w) (heap w)
        (Largest_banks_data_csv w) t (code_log w) (console w)
        (stdout_faults w).
Definition with_log (l : list log_record) (w : world) : world :=
  World (page w) (exchange_rate_csv w) (io_faults w) (heap w)
        (Largest_banks_data_csv w) (Banks_db w) l (console w)
        (stdout_faults w).
Definition with_console (c : list output) (w : world) : world :=
  World (page w) (exchange_rate_csv w) (io_faults w) (heap w)
        (Largest_banks_data_csv w) (Banks_db w) (code_log w) c
        (stdout_faults w).
Definition with_stdout_faults (fs : list (option exn)) (w : world) : world :=
  World (page w) (exchange_rate_csv w) (io_faults w) (heap w)
        (Largest_banks_data_csv w) (Banks_db w) (code_log w) (console w) fs.

(** ** Python computations: state and exceptions *)

Definition py (A : Type) : Type := world → result A * world.

#[global] Instance py_ret : MRet py := λ A a w, (Return a, w).

#[global] Instance py_bind : MBind py := λ A B f m w,
  match m w with
  | (Return a, w') => f a w'
  | (Raise e, w') => (Raise e, w')
  end.

Definition raise {A} (e : exn) : py A := λ w, (Raise e, w).

(** [try: body  except Exception as e: handler]. *)
Definition try_except {A} (body : py A) (handler : exn → py A) : py A := λ w,
  match body w with
  | (Return a, w') => (Return a, w')
  | (Raise e, w') => handler e w'
  end.

Definition lift {A} (r : result A) : py A := λ w, (r, w).

Definition gets {A} (f : world → A) : py A := λ w, (Return (f w), w).
Definition modify (f : world → world) : py unit := λ w, (Return tt, f w).

(** A call that the file system or the database engine may fail. *)
Definition io : py unit := λ w,
  match io_faults w with
  | [] => (Return tt, w)
  | None :: fs => (Return tt, with_io_faults fs w)
  | Some e :: fs => (Raise e, with_io_faults fs w)
  end.

(** [logging.info] does not raise: the handlers of [logging] keep the
    errors of the log file to themselves. *)
Definition logging_info (r : log_record) : py unit :=
  modify (λ w, with_log (code_log w ++ [r]) w).

(** [print] raises what standard output raises ([OSError] on a closed
    or full stream, [UnicodeEncodeError] on a console that cannot
    show the text), and then has written nothing. *)
Definition print (o : output) : py unit := λ w,
  match stdout_faults w with
  | [] => (Return tt, with_console (console w ++ [o]) w)
  | None :: fs =>
      (Return tt, with_console (console w ++ [o]) (with_stdout_faults fs w))
  | Some e :: fs => (Raise e, with_stdout_faults fs w)
  end.

Definition new (d : DataFrame) : py ref := λ w,
  (Return (length (heap w)), with_heap (heap w ++ [d]) w).

Definition deref (r : ref) : py DataFrame := λ w,
  match heap w !! r with
  | Some d => (Return d, w)
  | None => (Raise (Exception "ReferenceError" "no such object"), w)
  end.

Definition assign (r : ref) (f : DataFrame → DataFrame) : py unit :=
  d ← deref r; modify (λ w, with_heap (<[r := f d]> (heap w)) w).

(** [d[key]] on a frame that may lack the column. *)
Definition getitem {A} (key : string) (col : option A) : py A :=
  match col with
  | Some c => mret c
  | None => raise (KeyError key)
  end.

(** ** The stages *)

Definition set_MC_GBP_Billion (col : list float) (d : DataFrame) : DataFrame :=
  {| Name := Name d; MC_USD_Billion := MC_USD_Billion d;
     MC_GBP_Billion := Some col;
     MC_EUR_Billion := MC_EUR_Billion d; MC_INR_Billion := MC_INR_Billion d |}.
Definition set_MC_EUR_Billion (col : list float) (d : DataFrame) : DataFrame :=
  {| Name := Name d; MC_USD_Billion := MC_USD_Billion d;
     MC_GBP_Billion := MC_GBP_Billion d;
     MC_EUR_Billion := Some col; MC_INR_Billion := MC_INR_Billion d |}.
Definition set_MC_INR_Billion (col : list float) (d : DataFrame) : DataFrame :=
  {| Name := Name d; MC_USD_Billion := MC_USD_Billion d;
     MC_GBP_Billion := MC_GBP_Billion d;
     MC_EUR_Billion := MC_EUR_Billion d; MC_INR_Billion := Some col |}.

(** [(column * rate).round(2)]. *)
Definition convert (rate : float) (column : list float) : list float :=
  (λ usd, F64.round2 (F64.mul usd rate)) <$> column.

Definition required_currencies : gset string := {[ "EUR"; "GBP"; "INR" ]}.

(** [dict(zip(keys, values))]: a later pair replaces an earlier one
    with the same key. *)
Definition dict (keys : list string) (values : list float) : gmap string float :=
  foldl (λ m p, <[p.1 := p.2]> m) ∅ (zip keys values).

Definition dict_getitem (m : gmap string float) (key : string) : py float :=
  getitem key (m !! key).

Definition newline : string := String "010" "".

Section Pipeline.

(** The reader of [pd.to_numeric] for one string: the number it
    denotes, or nothing when the string is not a number. *)
Variable to_float : string → option float.

Definition log_progress (message : string) : py unit :=
  logging_info (info message).

(** [pd.to_numeric(..., errors='coerce')] on one cell. *)
Definition to_numeric (s : string) : float := default F64.nan (to_float s).

(** The two cleaning steps on a market-cap cell. *)
Definition clean (cell : string) : float := to_numeric (Text.replace_comma cell).

(** [soup.find_all('table', {'class': 'wikitable'})]. *)
Definition find_all_wikitable (soup : list Html.table) : list Html.table :=
  filter (λ t, "wikitable" ∈ Html.classes t) soup.

(** The inner loop over the headers of one table. *)
Fixpoint scan_headers (headers : list string) : bool :=
  match headers with
  | [] => false
  | header :: rest =>
      if negb (String.eqb header "") && Text.contains "Market cap" header
      then true
      else scan_headers rest
  end.

(** The outer loop over the tables. *)
Fixpoint scan_tables (tables : list Html.table) : option Html.table :=
  match tables with
  | [] => None
  | table :: rest =>
      if scan_headers (Html.th table) then Some table else scan_tables rest
  end.

(** [df[['Bank name', 'Market cap (US$ billion)']]] followed by the
    renaming to two labels. *)
Definition select (labels : list string) (data : list (list string))
  : result (list string * list string) :=
  match Html.labelled "Bank name" labels data,
        Html.labelled "Market cap (US$ billion)" labels data with
  | [], _ => Raise (KeyError "Bank name")
  | _, [] => Raise (KeyError "Market cap (US$ billion)")
  | [names], [caps] => Return (names, caps)
  | _, _ => Raise (ValueError "Length mismatch")
  end.

(** [extract], lines 28-82. *)
Definition extract : py (option ref) :=
  try_except
    (log_progress "Starting data extraction from Wikipedia";;
     log_progress "Making HTTP request to Wikipedia";;
     soup ← gets page ≫= lift;
     log_progress "Locating market capitalization table";;
     let tables := find_all_wikitable soup in
     match scan_tables tables with
     | Some target_table =>
         log_progress "Target table found - processing data";;
         df ← lift (Html.read_html target_table);
         logging_info (info_columns (Html.columns df));;
         let labels := Text.strip <$> Html.innermost (Html.columns df) in
         selected ← lift (select labels (Html.data df));
         df_clean ← new {| Name := selected.1;
                           MC_USD_Billion := clean <$> selected.2;
                           MC_GBP_Billion := None;
                           MC_EUR_Billion := None;
                           MC_INR_Billion := None |};
         log_progress "Data extraction completed successfully";;
         mret (Some df_clean)
     | None =>
         log_progress "Error: Target table not found!";;
         mret None
     end)
    (λ e, logging_info (info_error "Error in data extraction: " e);;
          mret None).

(** [transform], lines 84-123.  The three rates are looked up once,
    where the log line of line 108 first reads them. *)
Definition transform (df : option ref) : py (option ref) :=
  try_except
    match df with
    | None =>
        log_progress "Error: No dataframe to transform";;
        mret None
    | Some df =>
        log_progress "Starting data transformation";;
        try_except
          (log_progress "Reading exchange rates from exchange_rate.csv";;
           exchange_rates_df ← gets exchange_rate_csv ≫= lift;
           currency ← getitem "Currency" (Currency exchange_rates_df);
           let available_currencies : gset string := list_to_set currency in
           if negb (bool_decide (required_currencies ⊆ available_currencies))
           then
             let missing := required_currencies ∖ available_currencies in
             logging_info (info_missing missing);;
             mret None
           else
             rate ← getitem "Rate" (Rate exchange_rates_df);
             let exchange_rates := dict currency rate in
             eur ← dict_getitem exchange_rates "EUR";
             gbp ← dict_getitem exchange_rates "GBP";
             inr_ ← dict_getitem exchange_rates "INR";
             logging_info (info_rates eur gbp inr_);;
             assign df (λ d, set_MC_GBP_Billion (convert gbp (MC_USD_Billion d)) d);;
             assign df (λ d, set_MC_EUR_Billion (convert eur (MC_USD_Billion d)) d);;
             assign df (λ d, set_MC_INR_Billion (convert inr_ (MC_USD_Billion d)) d);;
             log_progress "Data transformation completed successfully";;
             mret (Some df))
          (λ e, logging_info (info_error "Error reading exchange rates CSV: " e);;
                mret None)
    end
    (λ e, logging_info (info_error "Error in data transformation: " e);;
          mret None).

(** [load_to_csv], lines 125-141. *)
Definition load_to_csv (df : option ref) : py bool :=
  try_except
    match df with
    | None =>
        log_progress "Error: No dataframe to save to CSV";;
        mret false
    | Some df =>
        log_progress "Starting CSV file export to ./Largest_banks_data.csv";;
        d ← deref df;
        io;;
        modify (with_csv (Some d));;
        log_progress "Data successfully exported to ./Largest_banks_data.csv";;
        mret true
    end
    (λ e, logging_info (info_error "Error saving to CSV: " e);;
          mret false).

(** [load_to_db], lines 143-163: [sqlite3.connect], then
    [to_sql(..., if_exists='replace')]. *)
Definition load_to_db (df : option ref) : py bool :=
  try_except
    match df with
    | None =>
        log_progress "Error: No dataframe to load to database";;
        mret false
    | Some df =>
        log_progress "Starting database loading process";;
        io;;
        d ← deref df;
        io;;
        modify (with_db (Some (sql_table d)));;
        log_progress "Data successfully loaded to Banks.db";;
        mret true
    end
    (λ e, logging_info (info_error "Error in database loading: " e);;
          mret false).

(** [pd.read_sql_query(query, conn)] for a query on [Largest_banks]. *)
Definition read_sql_query {A} (query : Sql.table → result A) : py A :=
  io;;
  db ← gets Banks_db;
  match db with
  | Some t => lift (query t)
  | None => raise Sql.no_such_table
  end.

(** [run_queries], lines 165-220. *)
Definition run_queries : py (option Sql.results) :=
  try_except
    (log_progress "Starting database queries";;
     io;;
     q1 ← read_sql_query Sql.query1;
     q2 ← read_sql_query Sql.query2;
     q3 ← read_sql_query Sql.query3;
     print (out_text (newline +:+ "Market Cap Analysis:"));;
     print (out_query1 q1);;
     print (out_text (newline +:+ "Average by Currency:"));;
     print (out_query2 q2);;
     print (out_text (newline +:+ "Bank Size Comparison:"));;
     print (out_query3 q3);;
     log_progress "Database queries completed successfully";;
     mret (Some {| Sql.Market_Cap_Analysis := q1;
                   Sql.Average_by_Currency := q2;
                   Sql.Bank_Size_Comparison := q3 |}))
    (λ e, logging_info (info_error "Error in database queries: " e);;
          mret None).

(** [verify_logs], lines 222-234. *)
Definition verify_logs : py bool :=
  try_except
    (io;;
     log_contents ← gets code_log;
     print (out_text (newline +:+ "Log file contents:"));;
     print (out_log log_contents);;
     mret true)
    (λ e, print (out_error "Error reading log file: " e);;
          mret false).

(** [main], lines 236-258. *)
Definition main : py unit :=
  log_progress "ETL Process Started";;
  df ← extract;
  match df with
  | Some _ =>
      df_transformed ← transform df;
      match df_transformed with
      | Some _ =>
          db_success ← load_to_db df_transformed;
          (if db_success : bool then run_queries;; mret tt else mret tt);;
          verify_logs;;
          log_progress "ETL Process Completed Successfully"
      | None =>
          log_progress "ETL Process Failed at Transformation Stage"
      end
  | None =>
      log_progress "ETL Process Failed at Extraction Stage"
  end.

End Pipeline.

(** ** A reader of plain decimal literals

    An optional minus sign, digits, and at most one point; the value
    is the nearest float.  It is the reader the worked runs below
    use for [to_float]. *)
Module Decimal.

Fixpoint read (s : string) (n : N) (k : option nat) (any : bool)
  : option (N * nat) :=
  match s with
  | "" => if any then Some (n, default 0%nat k) else None
  | String c s' =>
      match Ascii.is_nat c with
      | Some d => read s' (10 * n + N.of_nat d)%N (S <$> k) true
      | None =>
          if Ascii.eqb c "."%char
          then match k with
               | None => read s' n (Some 0%nat) any
               | Some _ => None
               end
          else None
      end
  end.

Definition value (neg : bool) (p : N * nat) : float :=
  F64.of_ratio neg p.1 (Z.to_pos (10 ^ Z.of_nat p.2)).

Definition to_float (s : string) : option float :=
  match s with
  | String "-" s' => value true <$> read s' 0%N None false
  | _ => value false <$> read s 0%N None false
  end.

End Decimal.

(** ** Rows

    The record at one position of a DataFrame, as the properties of
    the pipeline speak of it. *)
Record BankRecord := {
  record_Name : string;
  record_MC_USD_Billion : float;
  record_MC_GBP_Billion : option float;
  record_MC_EUR_Billion : option float;
  record_MC_INR_Billion : option float
}.

Definition iloc (d : DataFrame) (i : nat) : option BankRecord :=
  name ← Name d !! i;
  usd ← MC_USD_Billion d !! i;
  Some {| record_Name := name;
          record_MC_USD_Billion := usd;
          record_MC_GBP_Billion := MC_GBP_Billion d ≫= (.!! i);
          record_MC_EUR_Billion := MC_EUR_Billion d ≫= (.!! i);
          record_MC_INR_Billion := MC_INR_Billion d ≫= (.!! i) |}.

(** The DataFrame after the three assignments of [transform]. *)
Definition enrich (eur gbp inr_ : float) (d : DataFrame) : DataFrame :=
  {| Name := Name d;
     MC_USD_Billion := MC_USD_Billion d;
     MC_GBP_Billion := Some (convert gbp (MC_USD_Billion d));
     MC_EUR_Billion := Some (convert eur (MC_USD_Billion d));
     MC_INR_Billion := Some (convert inr_ (MC_USD_Billion d)) |}.

(** ** Rounding to two decimals

    What [round(x, 2)] is to mean for a float: [x * 100], a float, is
    brought to the nearest integer, to the even one when two are
    equally near, and that integer is divided by 100.  A product that
    has no fraction is its own nearest integer. *)

(** [k] is the integer nearest to [m * 2^e], where [e < 0]. *)
Definition nearest_even (m : positive) (e : Z) (k : Z) : Prop :=
  let d := 2 ^ (- e) in
  2 * Z.abs (Zpos m - k * d) ≤ d ∧
  (2 * Z.abs (Zpos m - k * d) = d → Z.even k = true).

(** The float of the integer [k] with the sign [s]; zero keeps the
    sign. *)
Definition of_integer (s : bool) (k : Z) : float :=
  binary_normalize F64.prec F64.emax (cond_Zopp s k) 0 s.

Definition rounded_to_2_decimals (x y : float) : Prop :=
  match F64.mul x F64.hundred with
  | S754_finite s m e =>
      if 0 <=? e then y = F64.div (S754_finite s m e) F64.hundred
      else ∃ k, nearest_even m e k ∧ y = F64.div (of_integer s k) F64.hundred
  | scaled => y = F64.div scaled F64.hundred
  end.

(** ** The scenario of one bank

    Rates EUR 0.93, GBP 0.80, INR 82.1 and the record of Bank A with
    100.0 billion dollars. *)
Module Scenario.

Definition exchange_rates : rates :=
  {| Currency := Some ["EUR"; "GBP"; "INR"];
     Rate := Some [F64.dec 93 2; F64.dec 80 2; F64.dec 821 1] |}.

Definition bank_a : DataFrame :=
  {| Name := ["Bank A"];
     MC_USD_Billion := [F64.dec 1000 1];
     MC_GBP_Billion := None;
     MC_EUR_Billion := None;
     MC_INR_Billion := None |}.

Definition bank_a_transformed : DataFrame :=
  {| Name := ["Bank A"];
     MC_USD_Billion := [F64.dec 1000 1];
     MC_GBP_Billion := Some [F64.dec 800 1];
     MC_EUR_Billion := Some [F64.dec 930 1];
     MC_INR_Billion := Some [F64.dec 82100 1] |}.

(** The page with one plain table and the table of market caps. *)
Definition assets_table : Html.table :=
  {| Html.classes := ["wikitable"; "sortable"];
     Html.th := ["Rank"; "Bank name"; "Total assets"];
     Html.read_html := Raise (ValueError "No tables found") |}.

Definition market_cap_table : Html.table :=
  {| Html.classes := ["wikitable"];
     Html.th := ["Rank"; "Bank name"; "Market cap (US$ billion)"];
     Html.read_html :=
       Return {| Html.columns :=
                   Html.Index ["Rank"; "Bank name"; "Market cap (US$ billion)"];
                 Html.data := [["1"]; ["Bank A"]; ["100.0"]] |} |}.

(** A world in which nothing fails and nothing has run yet. *)
Definition fresh : world :=
  {| page := Return [assets_table; market_cap_table];
     exchange_rate_csv := Return exchange_rates;
     io_faults := [];
     heap := [];
     Largest_banks_data_csv := None;
     Banks_db := None;
     code_log := [];
     console := [];
     stdout_faults := [] |}.

(** The world once [extract] has built Bank A's DataFrame. *)
Definition extracted : world :=
  {| page := Return [assets_table; market_cap_table];
     exchange_rate_csv := Return exchange_rates;
     io_faults := [];
     heap := [bank_a];
     Largest_banks_data_csv := None;
     Banks_db := None;
     code_log := [];
     console := [];
     stdout_faults := [] |}.

(** A page whose market-cap table has a thousands separator and a
    cell that is not a number. *)
Definition comma_frame : Html.frame :=
  {| Html.columns :=
       Html.MultiIndex [["Bank"; " Bank name"];
                        ["Size"; "Market cap (US$ billion) "]];
     Html.data := [["Bank A"; "Bank B"; "Bank C"];
                   ["100.0"; "1,234.5"; "n/a"]] |}.

Definition comma_table : Html.table :=
  {| Html.classes := ["wikitable"];
     Html.th := ["Bank name"; "Market cap (US$ billion)"];
     Html.read_html := Return comma_frame |}.

Definition fresh_comma : world :=
  {| page := Return [assets_table; comma_table];
     exchange_rate_csv := Return exchange_rates;
     io_faults := [];
     heap := [];
     Largest_banks_data_csv := None;
     Banks_db := None;
     code_log := [];
     console := [];
     stdout_faults := [] |}.

(** Two banks, the second with a market cap that did not parse. *)
Definition two_banks : DataFrame :=
  {| Name := ["Bank A"; "Bank B"];
     MC_USD_Billion := [F64.dec 1000 1; F64.nan];
     MC_GBP_Billion := None;
     MC_EUR_Billion := None;
     MC_INR_Billion := None |}.

Definition extracted_two : world :=
  {| page := Return [assets_table; market_cap_table];
     exchange_rate_csv := Return exchange_rates;
     io_faults := [];
     heap := [two_banks];
     Largest_banks_data_csv := None;
     Banks_db := None;
     code_log := [];
     console := [];
     stdout_faults := [] |}.

(** The world once [transform] has run, with a stale table of two
    rows left in the database by an earlier run. *)
Definition transformed : world :=
  {| page := Return [assets_table; market_cap_table];
     exchange_rate_csv := Return exchange_rates;
     io_faults := [];
     heap := [bank_a_transformed];
     Largest_banks_data_csv := None;
     Banks_db := Some (sql_table two_banks);
     code_log := [];
     console := [];
     stdout_faults := [] |}.

(** A table of three banks whose EUR market caps are 10, 20 and 30,
    and a world whose database holds it. *)
Definition ten_twenty_thirty : list Sql.real :=
  [Some (F64.of_Z 10); Some (F64.of_Z 20); Some (F64.of_Z 30)].

Definition three_banks : Sql.table :=
  {| Sql.Name := ["Bank A"; "Bank B"; "Bank C"];
     Sql.MC_USD_Billion := ten_twenty_thirty;
     Sql.MC_GBP_Billion := Some ten_twenty_thirty;
     Sql.MC_EUR_Billion := Some ten_twenty_thirty;
     Sql.MC_INR_Billion := Some ten_twenty_thirty |}.

Definition loaded : world :=
  {| page := Return [];
     exchange_rate_csv := Return exchange_rates;
     io_faults := [];
     heap := [];
     Largest_banks_data_csv := None;
     Banks_db := Some three_banks;
     code_log := [];
     console := [];
     stdout_faults := [] |}.

(** Bank A and a bank whose converted market caps have more than
    two decimals before they are rounded: 123.45 billion dollars are
    114.8085 billion euros. *)
Definition banks_a_b : DataFrame :=
  {| Name := ["Bank A"; "Bank B"];
     MC_USD_Billion := [F64.dec 1000 1; F64.dec 12345 2];
     MC_GBP_Billion := None;
     MC_EUR_Billion := None;
     MC_INR_Billion := None |}.

Definition banks_a_b_transformed : DataFrame :=
  {| Name := ["Bank A"; "Bank B"];
     MC_USD_Billion := [F64.dec 1000 1; F64.dec 12345 2];
     MC_GBP_Billion := Some [F64.dec 800 1; F64.dec 9876 2];
     MC_EUR_Billion := Some [F64.dec 930 1; F64.dec 11481 2];
     MC_INR_Billion := Some [F64.dec 82100 1; F64.dec 1013524 2] |}.

Definition extracted_a_b : world :=
  {| page := Return [assets_table; market_cap_table];
     exchange_rate_csv := Return exchange_rates;
     io_faults := [];
     heap := [banks_a_b];
     Largest_banks_data_csv := None;
     Banks_db := None;
     code_log := [];
     console := [];
     stdout_faults := [] |}.

(** A table whose EUR market caps are 2.0, none and 2.01: their
    average is 2.005 and the ratio of the two is 1.005. *)
Definition two_and_a_cent : list Sql.real :=
  [Some (F64.dec 20 1); None; Some (F64.dec 201 2)].

Definition cent_banks : Sql.table :=
  {| Sql.Name := ["Bank A"; "Bank B"; "Bank C"];
     Sql.MC_USD_Billion := two_and_a_cent;
     Sql.MC_GBP_Billion := Some two_and_a_cent;
     Sql.MC_EUR_Billion := Some two_and_a_cent;
     Sql.MC_INR_Billion := Some two_and_a_cent |}.

Definition loaded_cent : world :=
  {| page := Return [];
     exchange_rate_csv := Return exchange_rates;
     io_faults := [];
     heap := [];
     Largest_banks_data_csv := None;
     Banks_db := Some cent_banks;
     code_log := [];
     console := [];
     stdout_faults := [] |}.

(** A table whose EUR market caps are 184.57, none and 200.0. *)
Definition percent_banks : Sql.table :=
  {| Sql.Name := ["Bank A"; "Bank B"; "Bank C"];
     Sql.MC_USD_Billion := [None; None; None];
     Sql.MC_GBP_Billion := None;
     Sql.MC_EUR_Billion := Some [Some (F64.dec 18457 2); None; Some (F64.dec 2000 1)];
     Sql.MC_INR_Billion := None |}.

(** A rate file without the rupee. *)
Definition rates_without_inr : rates :=
  {| Currency := Some ["EUR"; "GBP"; "USD"];
     Rate := Some [F64.dec 93 2; F64.dec 80 2; F64.dec 1 0] |}.

Definition extracted_without_inr : world :=
  {| page := Return [assets_table; market_cap_table];
     exchange_rate_csv := Return rates_without_inr;
     io_faults := [];
     heap := [bank_a];
     Largest_banks_data_csv := None;
     Banks_db := None;
     code_log := [];
     console := [];
     stdout_faults := [] |}.

End Scenario.

(** ** The table that [extract] is to find

    In the words of the specification: a wiki-style table with a
    header cell whose text contains "Market cap", the first such table
    of the page. *)
Definition wikitable (t : Html.table) : Prop := "wikitable" ∈ Html.classes t.

Definition mentions_market_cap (t : Html.table) : Prop :=
  ∃ header, header ∈ Html.th t ∧ ∃ a b, header = a +:+ "Market cap" +:+ b.

Definition market_cap_table (t : Html.table) : Prop :=
  wikitable t ∧ mentions_market_cap t.

Definition first_market_cap_table (soup : list Html.table) (t : Html.table)
  : Prop :=
  ∃ before after,
    soup = before ++ t :: after ∧
    market_cap_table t ∧
    ∀ t', t' ∈ before → ¬ market_cap_table t'.

(** ** The columns that [extract] is to keep

    [only_column labels data key col]: exactly one column of the frame
    has the label [key], and [col] holds its cells. *)
Definition only_column (labels : list string) (data : list (list string))
    (key : string) (col : list string) : Prop :=
  ∃ i, labels !! i = Some key ∧ data !! i = Some col ∧
       ∀ j c, labels !! j = Some key → data !! j = Some c → j = i.

(** ** What the table is to hold

    The rows of a Dataset, once each and in their order: the names as
    they are, a number as itself, a missing value as NULL, and a column
    only if the Dataset has it. *)
Definition stores (x : float) (cell : Sql.real) : Prop :=
  if F64.is_nan x then cell = None else cell = Some x.

Definition holds_rows (t : Sql.table) (d : DataFrame) : Prop :=
  Sql.Name t = Name d ∧
  Forall2 stores (MC_USD_Billion d) (Sql.MC_USD_Billion t) ∧
  option_Forall2 (Forall2 stores) (MC_GBP_Billion d) (Sql.MC_GBP_Billion t) ∧
  option_Forall2 (Forall2 stores) (MC_EUR_Billion d) (Sql.MC_EUR_Billion t) ∧
  option_Forall2 (Forall2 stores) (MC_INR_Billion d) (Sql.MC_INR_Billion t).

(** ** What [ROUND(x, 2)] gives

    The number itself where it is beyond [2^52], or the number that
    SQLite reads from a text of so many hundredths. *)
Definition read_from_hundredths (y : float) : Prop :=
  ∃ neg k, 0 ≤ k ∧ y = Sql.Printf.AtoF neg k.

Definition rounded_or_kept (x y : float) : Prop :=
  (F64.ltb (F64.of_Z (2 ^ 52)) (SFabs x) = true ∧ y = x) ∨
  read_from_hundredths y.

(** [b] is the cell [a] under [ROUND(a, 2)]: NULL stays NULL. *)
Definition rounded_cell (a b : Sql.real) : Prop :=
  match a with
  | None => b = None
  | Some x => ∃ y, b = Some y ∧ (F64.is_nan x = false → rounded_or_kept x y)
  end.

(** ** What a caller sees of a stage

    A stage that ends by returning [v], having added [entries] to the
    log; and the mark that a caught exception leaves there. *)
Definition returns {A} (stage : py A) (w : world) (v : A)
    (entries : list log_record) (w' : world) : Prop :=
  stage w = (Return v, w') ∧ code_log w' = code_log w ++ entries.

Definition caught (entries : list log_record) : Prop :=
  ∃ context e, info_error context e ∈ entries.

Definition printed_error (outs : list output) : Prop :=
  ∃ context e, out_error context e ∈ outs.

(** A computation that ends by returning in every world. *)
Definition never_raises {A} (m : py A) : Prop :=
  ∀ w, ∃ a w', m w = (Return a, w').

(** A computation that leaves the file at [CSV_OUTPUT_PATH] as it is. *)
Definition keeps_csv {A} (m : py A) : Prop :=
  ∀ w, Largest_banks_data_csv (m w).2 = Largest_banks_data_csv w.

(** A stage that has only written to the log. *)
Definition only_logged (w w' : world) : Prop :=
  ∃ entries, w' = with_log (code_log w ++ entries) w.

(** ** What a computation leaves as it is

    [stable R m]: the world after [m] is related by [R] to the world
    before it, for every world.  The relations used are: a part of the
    world is unchanged; the log has only grown; standard output has
    used up some of its faults. *)
Definition stable {A} (R : relation world) (m : py A) : Prop :=
  ∀ w, R w (m w).2.

Definition unchanged {B} (f : world → B) : relation world :=
  λ w w', f w' = f w.

Definition log_grows : relation world :=
  λ w w', code_log w `prefix_of` code_log w'.

(** The faults that standard output still has in store are the last of
    those it had. *)
Definition stdout_used : relation world :=
  λ w w', stdout_faults w' `suffix_of` stdout_faults w.

(** A computation that lets out no exception but one that standard
    output has raised. *)
Definition raises_only_stdout_errors {A} (m : py A) : Prop :=
  ∀ w, match m w with
       | (Return _, w') => stdout_used w w'
       | (Raise e, _) => Some e ∈ stdout_faults w
       end.

(** ** What a run depends on

    [extractable w d]: the page of [w] can be fetched, holds a
    market-cap table that parses, with one column of each of the two
    labels, and [d] is the DataFrame of those two columns.
    [convertible w eur gbp inr_]: the rate file of [w] can be read, has
    both columns and gives these rates for the three currencies. *)
Definition extractable (to_float : string → option float) (w : world)
    (d : DataFrame) : Prop :=
  ∃ soup t frame names caps,
    page w = Return soup ∧
    scan_tables (find_all_wikitable soup) = Some t ∧
    Html.read_html t = Return frame ∧
    select (Text.strip <$> Html.innermost (Html.columns frame))
           (Html.data frame) = Return (names, caps) ∧
    d = {| Name := names;
           MC_USD_Billion := clean to_float <$> caps;
           MC_GBP_Billion := None;
           MC_EUR_Billion := None;
           MC_INR_Billion := None |}.

(** The same in the words of the specification: the first market-cap
    table of the page parses, exactly one column of its frame is labelled
    "Bank name" and exactly one "Market cap (US$ billion)", by the
    innermost level of the labels with the white space around them
    taken off, and [d] holds the cells of the first as names and those
    of the second as numbers. *)
Definition market_cap_dataset (to_float : string → option float) (w : world)
    (d : DataFrame) : Prop :=
  ∃ soup t frame names caps,
    page w = Return soup ∧
    first_market_cap_table soup t ∧
    Html.read_html t = Return frame ∧
    only_column (Text.strip <$> Html.innermost (Html.columns frame))
                (Html.data frame) "Bank name" names ∧
    only_column (Text.strip <$> Html.innermost (Html.columns frame))
                (Html.data frame) "Market cap (US$ billion)" caps ∧
    Name d = names ∧
    MC_USD_Billion d = clean to_float <$> caps ∧
    MC_GBP_Billion d = None ∧
    MC_EUR_Billion d = None ∧
    MC_INR_Billion d = None.

Definition convertible (w : world) (eur gbp inr_ : float) : Prop :=
  ∃ cs rs,
    exchange_rate_csv w = Return {| Currency := Some cs; Rate := Some rs |} ∧
    dict cs rs !! "EUR" = Some eur ∧
    dict cs rs !! "GBP" = Some gbp ∧
    dict cs rs !! "INR" = Some inr_.

(** ** Further runs of the scenario of one bank *)
Module Runs.

(** The page cannot be fetched. *)
Definition offline : world :=
  {| page := Raise (Exception "ConnectionError" "Max retries exceeded");
     exchange_rate_csv := Return Scenario.exchange_rates;
     io_faults := [];
     heap := [];
     Largest_banks_data_csv := None;
     Banks_db := None;
     code_log := [];
     console := [];
     stdout_faults := [] |}.

(** The page is there, the rate file lacks the rupee. *)
Definition without_inr : world :=
  {| page := Return [Scenario.assets_table; Scenario.market_cap_table];
     exchange_rate_csv := Return Scenario.rates_without_inr;
     io_faults := [];
     heap := [];
     Largest_banks_data_csv := None;
     Banks_db := None;
     code_log := [];
     console := [];
     stdout_faults := [] |}.

Definition unable_to_open : exn :=
  Exception "OperationalError" "unable to open database file".

(** A page of two banks worth 2.0 and 2.01 billion dollars, and a rate
    file in which the euro is at par. *)
Definition cent_table : Html.table :=
  {| Html.classes := ["wikitable"];
     Html.th := ["Rank"; "Bank name"; "Market cap (US$ billion)"];
     Html.read_html :=
       Return {| Html.columns :=
                   Html.Index ["Rank"; "Bank name"; "Market cap (US$ billion)"];
                 Html.data := [["1"; "2"]; ["Bank A"; "Bank B"];
                               ["2.0"; "2.01"]] |} |}.

Definition rates_at_par : rates :=
  {| Currency := Some ["EUR"; "GBP"; "INR"];
     Rate := Some [F64.dec 10 1; F64.dec 80 2; F64.dec 821 1] |}.

Definition cent_page : world :=
  {| page := Return [Scenario.assets_table; cent_table];
     exchange_rate_csv := Return rates_at_par;
     io_faults := [];
     heap := [];
     Largest_banks_data_csv := None;
     Banks_db := None;
     code_log := [];
     console := [];
     stdout_faults := [] |}.

Definition broken_pipe : exn := Exception "BrokenPipeError" "[Errno 32] Broken pipe".

(** Standard output has been closed by its reader: every [print] of
    the run fails. *)
Definition stdout_closed : world :=
  {| page := Return [Scenario.assets_table; Scenario.market_cap_table];
     exchange_rate_csv := Return Scenario.exchange_rates;
     io_faults := [];
     heap := [];
     Largest_banks_data_csv := None;
     Banks_db := None;
     code_log := [];
     console := [];
     stdout_faults := [Some broken_pipe; Some broken_pipe; Some broken_pipe] |}.

(** The database cannot be opened; the log file can be read. *)
Definition database_down : world :=
  {| page := Return [Scenario.assets_table; Scenario.market_cap_table];
     exchange_rate_csv := Return Scenario.exchange_rates;
     io_faults := [Some unable_to_open];
     heap := [];
     Largest_banks_data_csv := None;
     Banks_db := None;
     code_log := [];
     console := [];
     stdout_faults := [] |}.

End Runs.

(** ** The report of [run_queries]: the lines it prints, in order *)
Definition report (q1 : Sql.query1_row) (q2 : Sql.query2_row)
    (q3 : list Sql.query3_row) : list output :=
  [out_text (newline +:+ "Market Cap Analysis:"); out_query1 q1;
   out_text (newline +:+ "Average by Currency:"); out_query2 q2;
   out_text (newline +:+ "Bank Size Comparison:"); out_query3 q3].

(** ** The order of the third query

    Rows in the order of [ORDER BY MC_EUR_Billion DESC]: no row is
    followed by one that sorts before it. *)
Definition in_order (rows : list Sql.query3_row) : Prop :=
  ∀ i a b,
    rows !! i = Some a → rows !! S i = Some b →
    Sql.before_desc (Sql.q3_MC_EUR_Billion a) (Sql.q3_MC_EUR_Billion b) = true.

(** The row of the third query for one row of the table. *)
Definition query3_row_of (max_mc : Sql.real) (name : string) (x : Sql.real)
  : Sql.query3_row :=
  {| Sql.q3_Name := name;
     Sql.q3_MC_EUR_Billion := x;
     Sql.Percent_of_Largest :=
       Sql.ROUND2 (Sql.mul (Sql.div x max_mc) (Some (F64.of_Z 100))) |}.

Module Runs2.

(** A rate file with two rows for the euro, and Bank A extracted. *)
Definition two_euro_rows : world :=
  {| page := Return [];
     exchange_rate_csv :=
       Return {| Currency := Some ["EUR"; "GBP"; "EUR"; "INR"];
                 Rate := Some [F64.dec 90 2; F64.dec 80 2;
                               F64.dec 93 2; F64.dec 821 1] |};
     io_faults := [];
     heap := [Scenario.bank_a];
     Largest_banks_data_csv := None;
     Banks_db := None;
     code_log := [];
     console := [];
     stdout_faults := [] |}.

End Runs2.

(** * Properties *)

Ltac py_unfold :=
  unfold main, transform, extract, load_to_csv, load_to_db, run_queries,
    verify_logs, read_sql_query, dict_getitem, getitem, assign, deref, new,
    print, log_progress, logging_info, io, modify, gets, lift, raise,
    try_except, mbind, mret, py_bind, py_ret in *.

(** Every path through a stage, one goal each. *)
Ltac py_cases :=
  py_unfold; simpl in *; repeat (case_match; simplify_eq/=).

(** ** The rate dictionary *)

Lemma dict_fold_lookup (cs : list string) (rs : list float)
    (m : gmap string float) k v :
  foldl (λ m p, <[p.1 := p.2]> m) m (zip cs rs) !! k = Some v →
  m !! k = Some v ∨ k ∈ cs.
Proof.
  revert rs m. induction cs as [|c cs IH]; intros [|r rs] m; simpl; auto.
  intros H. apply IH in H as [H|H]; [|right; by constructor].
  destruct (decide (c = k)) as [->|Hne].
  - right. constructor.
  - rewrite lookup_insert_ne in H; auto.
Qed.

Lemma dict_lookup_elem cs rs k v : dict cs rs !! k = Some v → k ∈ cs.
Proof.
  intros H. apply dict_fold_lookup in H as [H|H]; [|done].
  by rewrite lookup_empty in H.
Qed.

Lemma required_subseteq (cs : list string) :
  "EUR" ∈ cs → "GBP" ∈ cs → "INR" ∈ cs →
  required_currencies ⊆ list_to_set (C:=gset string) cs.
Proof.
  intros He Hg Hi c Hc. apply elem_of_list_to_set.
  unfold required_currencies in Hc.
  apply elem_of_union in Hc as [Hc|Hc]; [apply elem_of_union in Hc as [Hc|Hc]|];
    apply elem_of_singleton in Hc; by subst.
Qed.

(** ** Running a computation step by step *)

Lemma run_bind {A B} (m : py A) (f : A → py B) w a w1 r :
  m w = (Return a, w1) → f a w1 = r → (m ≫= f) w = r.
Proof. intros Hm Hf. unfold mbind, py_bind. by rewrite Hm. Qed.

Lemma run_bind_raise {A B} (m : py A) (f : A → py B) w e w1 :
  m w = (Raise e, w1) → (m ≫= f) w = (Raise e, w1).
Proof. intros Hm. unfold mbind, py_bind. by rewrite Hm. Qed.

Lemma run_try_return {A} (body : py A) handler w a w1 :
  body w = (Return a, w1) → try_except body handler w = (Return a, w1).
Proof. intros Hb. unfold try_except. by rewrite Hb. Qed.

Lemma run_try_raise {A} (body : py A) handler w e w1 r :
  body w = (Raise e, w1) → handler e w1 = r → try_except body handler w = r.
Proof. intros Hb Hh. unfold try_except. by rewrite Hb. Qed.

Lemma run_gets_lift {A} (f : world → result A) w a :
  f w = Return a → (gets f ≫= lift) w = (Return a, w).
Proof. intros Hf. unfold mbind, py_bind, gets, lift. by rewrite Hf. Qed.

Lemma run_gets_lift_raise {A} (f : world → result A) w e :
  f w = Raise e → (gets f ≫= lift) w = (Raise e, w).
Proof. intros Hf. unfold mbind, py_bind, gets, lift. by rewrite Hf. Qed.

Lemma run_assign r f w d :
  heap w !! r = Some d →
  assign r f w = (Return tt, with_heap (<[r := f d]> (heap w)) w).
Proof. intros Hd. unfold assign, deref, mbind, py_bind, modify. by rewrite Hd. Qed.

(** The fields of a world after some updates. *)
Ltac py_world :=
  cbn [with_io_faults with_heap with_csv with_db with_log with_console
       with_stdout_faults
       page exchange_rate_csv io_faults heap Largest_banks_data_csv Banks_db
       code_log console stdout_faults] in *.

(** One statement that returns: run it and go on with the rest. *)
Ltac py_step := eapply run_bind; [reflexivity|]; cbn beta.

(** ** [transform] *)

(** A run of [transform] with a readable rate file that holds the
    three currencies. *)
Lemma transform_run w df d cs rs eur gbp inr_ :
  heap w !! df = Some d →
  exchange_rate_csv w = Return {| Currency := Some cs; Rate := Some rs |} →
  dict cs rs !! "EUR" = Some eur →
  dict cs rs !! "GBP" = Some gbp →
  dict cs rs !! "INR" = Some inr_ →
  transform (Some df) w =
    (Return (Some df),
     World (page w) (exchange_rate_csv w) (io_faults w)
           (<[df := enrich eur gbp inr_ d]> (heap w))
           (Largest_banks_data_csv w) (Banks_db w)
           (code_log w ++
              [info "Starting data transformation";
               info "Reading exchange rates from exchange_rate.csv";
               info_rates eur gbp inr_;
               info "Data transformation completed successfully"])
           (console w) (stdout_faults w)).
Proof.
  intros Hd Hcsv He Hg Hi.
  assert (Hsub : required_currencies ⊆ list_to_set (C:=gset string) cs)
    by (apply required_subseteq; eauto using dict_lookup_elem).
  pose proof (lookup_lt_Some _ _ _ Hd) as Hlt.
  unfold transform. apply run_try_return.
  py_step. apply run_try_return. py_step.
  eapply run_bind; [by apply run_gets_lift|]. cbn beta.
  py_step. cbn zeta.
  rewrite bool_decide_eq_true_2 by done. cbn [negb].
  py_step.
  eapply run_bind; [unfold dict_getitem; rewrite He; reflexivity|]. cbn beta.
  eapply run_bind; [unfold dict_getitem; rewrite Hg; reflexivity|]. cbn beta.
  eapply run_bind; [unfold dict_getitem; rewrite Hi; reflexivity|]. cbn beta.
  py_step.
  eapply run_bind; [by apply run_assign|]. cbn beta.
  eapply run_bind;
    [apply run_assign; cbn [heap with_heap with_log];
     by apply list_lookup_insert_eq|]. cbn beta.
  eapply run_bind;
    [apply run_assign; cbn [heap with_heap with_log];
     apply list_lookup_insert_eq; by rewrite length_insert|].
  cbn beta.
  py_step. unfold mret, py_ret. f_equal.
  py_world.
  rewrite !list_insert_insert_eq, <- !app_assoc. reflexivity.
Qed.

Lemma iloc_enrich eur gbp inr_ d i row :
  iloc (enrich eur gbp inr_ d) i = Some row →
  iloc d i = Some {| record_Name := record_Name row;
                     record_MC_USD_Billion := record_MC_USD_Billion row;
                     record_MC_GBP_Billion := MC_GBP_Billion d ≫= (.!! i);
                     record_MC_EUR_Billion := MC_EUR_Billion d ≫= (.!! i);
                     record_MC_INR_Billion := MC_INR_Billion d ≫= (.!! i) |} ∧
  record_MC_GBP_Billion row =
    Some (F64.round2 (F64.mul (record_MC_USD_Billion row) gbp)) ∧
  record_MC_EUR_Billion row =
    Some (F64.round2 (F64.mul (record_MC_USD_Billion row) eur)) ∧
  record_MC_INR_Billion row =
    Some (F64.round2 (F64.mul (record_MC_USD_Billion row) inr_)).
Proof.
  unfold iloc, enrich, convert. simpl. intros H.
  destruct (Name d !! i) as [name|]; [|done].
  destruct (MC_USD_Billion d !! i) as [usd|] eqn:Hu; [|done].
  simpl in H. rewrite !list_lookup_fmap, Hu in H. simpl in H.
  by simplify_eq.
Qed.

(** ** Rounding as numpy does it *)

Lemma iter_pos_nat {A} (f : A → A) p x :
  SpecFloat.iter_pos f p x = Nat.iter (Pos.to_nat p) f x.
Proof.
  revert x. induction p as [p IH|p IH|]; intros x.
  - change (SpecFloat.iter_pos f p~1 x)
      with (SpecFloat.iter_pos f p (SpecFloat.iter_pos f p (f x))).
    rewrite !IH, Pos2Nat.inj_xI.
    replace (S (2 * Pos.to_nat p)) with (Pos.to_nat p + (Pos.to_nat p + 1))%nat
      by lia.
    by rewrite !Nat.iter_add.
  - change (SpecFloat.iter_pos f p~0 x)
      with (SpecFloat.iter_pos f p (SpecFloat.iter_pos f p x)).
    rewrite !IH, Pos2Nat.inj_xO.
    replace (2 * Pos.to_nat p)%nat with (Pos.to_nat p + Pos.to_nat p)%nat by lia.
    by rewrite Nat.iter_add.
  - reflexivity.
Qed.

(** What [n] shifts to the right leave of [m0]: the quotient by [2^n],
    and of the remainder whether it is at least one half, and whether
    it is neither nothing nor one half. *)
Lemma shr_iter m0 n :
  0 ≤ m0 →
  let mrs := Nat.iter n shr_1 {| shr_m := m0; shr_r := false; shr_s := false |} in
  ∃ rem,
    m0 = shr_m mrs * 2 ^ Z.of_nat n + rem ∧
    0 ≤ shr_m mrs ∧
    0 ≤ rem < 2 ^ Z.of_nat n ∧
    (shr_r mrs = true ↔ 2 ^ Z.of_nat n ≤ 2 * rem) ∧
    (shr_s mrs = true ↔ 2 * rem ≠ 0 ∧ 2 * rem ≠ 2 ^ Z.of_nat n).
Proof.
  intros Hm0. induction n as [|n IH]; cbn zeta.
  - exists 0. simpl. repeat split; try lia; try discriminate.
  - cbn zeta in IH. destruct IH as (rem & Hm & Hpos & Hrem & Hr & Hs).
    rewrite Nat2Z.inj_succ, Z.pow_succ_r by lia.
    rewrite Nat.iter_succ.
    destruct (Nat.iter n shr_1 _) as [m r s]. cbn [shr_m shr_r shr_s] in *.
    set (d := 2 ^ Z.of_nat n) in *.
    assert (Hrs : r || s = true ↔ rem ≠ 0).
    { rewrite orb_true_iff, Hr, Hs. lia. }
    destruct m as [|[p|p|]|p]; try lia; cbn [shr_1 shr_m shr_r shr_s].
    + exists rem. rewrite Hrs. repeat split; try lia; try done.
    + exists (rem + d). rewrite Hrs. repeat split; try lia; try done.
    + exists rem. rewrite Hrs. repeat split; try lia; try done.
    + exists (rem + d). rewrite Hrs. repeat split; try lia; try done.
Qed.

(** [rint] on a number with a fraction. *)
Lemma rint_nearest_even s m e :
  e < 0 →
  ∃ k, nearest_even m e k ∧
       F64.rint (S754_finite s m e) = of_integer s k.
Proof.
  intros He. unfold F64.rint.
  destruct (0 <=? e) eqn:Hle; [lia|].
  destruct e as [|p|p]; try lia.
  unfold shr, shr_record_of_loc.
  change (- Z.neg p) with (Z.pos p). lazy beta iota.
  rewrite iter_pos_nat.
  destruct (shr_iter (Zpos m) (Pos.to_nat p) ltac:(lia))
    as (rem & Hm & Hpos & Hrem & Hr & Hs).
  rewrite positive_nat_Z in *.
  destruct (Nat.iter _ shr_1 _) as [m' r s'].
  cbn [shr_m shr_r shr_s loc_of_shr_record] in *.
  eexists. split; [|reflexivity].
  unfold nearest_even. change (- Z.neg p) with (Z.pos p). cbn zeta.
  set (d := 2 ^ Z.pos p) in *.
  destruct r, s'; cbn [round_nearest_even].
  - assert (d ≤ 2 * rem) by (by apply Hr).
    assert (2 * rem ≠ 0 ∧ 2 * rem ≠ d) by (by apply Hs). split; nia.
  - assert (d ≤ 2 * rem) by (by apply Hr).
    assert (¬ (2 * rem ≠ 0 ∧ 2 * rem ≠ d)) by (rewrite <- Hs; done).
    destruct (Z.even m') eqn:Heven; (split; [nia|intros _]); [done|].
    rewrite Z.even_add, Heven. reflexivity.
  - assert (¬ d ≤ 2 * rem) by (rewrite <- Hr; done).
    assert (2 * rem ≠ 0 ∧ 2 * rem ≠ d) by (by apply Hs). split; nia.
  - assert (¬ d ≤ 2 * rem) by (rewrite <- Hr; done).
    assert (¬ (2 * rem ≠ 0 ∧ 2 * rem ≠ d)) by (rewrite <- Hs; done).
    split; nia.
Qed.

Lemma round2_rounded x : rounded_to_2_decimals x (F64.round2 x).
Proof.
  unfold rounded_to_2_decimals, F64.round2.
  destruct (F64.mul x F64.hundred) as [| | |s m e] eqn:Hscaled; try reflexivity.
  destruct (0 <=? e) eqn:He.
  - unfold F64.rint. by rewrite He.
  - destruct (rint_nearest_even s m e ltac:(lia)) as (k & Hk & ->). eauto.
Qed.



Ltac py_steps := repeat py_step.

(** The handler of a stage: log the error, return the failure value. *)
Ltac py_caught :=
  eapply run_try_raise; [|py_steps; reflexivity].

Lemma world_eq w1 w2 :
  page w1 = page w2 →
  exchange_rate_csv w1 = exchange_rate_csv w2 →
  io_faults w1 = io_faults w2 →
  heap w1 = heap w2 →
  Largest_banks_data_csv w1 = Largest_banks_data_csv w2 →
  Banks_db w1 = Banks_db w2 →
  code_log w1 = code_log w2 →
  console w1 = console w2 →
  stdout_faults w1 = stdout_faults w2 →
  w1 = w2.
Proof. destruct w1, w2. simpl. by intros -> -> -> -> -> -> -> -> ->. Qed.

Ltac py_logged :=
  eexists; apply world_eq; py_world; rewrite <- ?app_assoc; reflexivity.

Ltac py_dict H :=
  eapply run_bind; [unfold dict_getitem; rewrite H; reflexivity|]; cbn beta.

Lemma transform_outcome w df :
  (∃ d cs rs eur gbp inr_ w',
     heap w !! df = Some d ∧
     exchange_rate_csv w = Return {| Currency := Some cs; Rate := Some rs |} ∧
     dict cs rs !! "EUR" = Some eur ∧
     dict cs rs !! "GBP" = Some gbp ∧
     dict cs rs !! "INR" = Some inr_ ∧
     transform (Some df) w = (Return (Some df), w') ∧
     heap w' = <[df := enrich eur gbp inr_ d]> (heap w)) ∨
  (∃ w', transform (Some df) w = (Return None, w') ∧ only_logged w w').
Proof.
  destruct (exchange_rate_csv w) as [[[cs|] rate]|e] eqn:Hcsv.
  - destruct (decide (required_currencies ⊆ list_to_set (C:=gset string) cs))
      as [Hsub|Hsub].
    + destruct rate as [rs|].
      * destruct (dict cs rs !! "EUR") as [eur|] eqn:He;
        [destruct (dict cs rs !! "GBP") as [gbp|] eqn:Hg;
         [destruct (dict cs rs !! "INR") as [inr_|] eqn:Hi;
          [destruct (heap w !! df) as [d|] eqn:Hd|]|]|].
        -- left. eexists d, cs, rs, eur, gbp, inr_, _.
           repeat split; try done; [by erewrite transform_run|reflexivity].
        -- right. eexists. split.
           { unfold transform. apply run_try_return. py_step.
             py_caught. py_step.
             eapply run_bind; [by apply run_gets_lift|]. cbn beta.
             py_step. cbn zeta. rewrite bool_decide_eq_true_2 by done. cbn [negb].
             py_step. py_dict He. py_dict Hg. py_dict Hi.
             py_step. eapply run_bind_raise.
             unfold assign, deref. eapply run_bind_raise. py_world.
             rewrite Hd. reflexivity. }
           py_logged.
        -- right. eexists. split.
           { unfold transform. apply run_try_return. py_step.
             py_caught. py_step.
             eapply run_bind; [by apply run_gets_lift|]. cbn beta.
             py_step. cbn zeta. rewrite bool_decide_eq_true_2 by done. cbn [negb].
             py_step. py_dict He. py_dict Hg.
             eapply run_bind_raise. unfold dict_getitem. rewrite Hi. reflexivity. }
           py_logged.
        -- right. eexists. split.
           { unfold transform. apply run_try_return. py_step.
             py_caught. py_step.
             eapply run_bind; [by apply run_gets_lift|]. cbn beta.
             py_step. cbn zeta. rewrite bool_decide_eq_true_2 by done. cbn [negb].
             py_step. py_dict He.
             eapply run_bind_raise. unfold dict_getitem. rewrite Hg. reflexivity. }
           py_logged.
        -- right. eexists. split.
           { unfold transform. apply run_try_return. py_step.
             py_caught. py_step.
             eapply run_bind; [by apply run_gets_lift|]. cbn beta.
             py_step. cbn zeta. rewrite bool_decide_eq_true_2 by done. cbn [negb].
             py_step.
             eapply run_bind_raise. unfold dict_getitem. rewrite He. reflexivity. }
           py_logged.
      * right. eexists. split.
        { unfold transform. apply run_try_return. py_step.
          py_caught. py_step.
          eapply run_bind; [by apply run_gets_lift|]. cbn beta.
          py_step. cbn zeta. rewrite bool_decide_eq_true_2 by done. cbn [negb].
          eapply run_bind_raise. reflexivity. }
        py_logged.
    + right. eexists. split.
      { unfold transform. apply run_try_return. py_step.
        apply run_try_return. py_step.
        eapply run_bind; [by apply run_gets_lift|]. cbn beta.
        py_step. cbn zeta. rewrite bool_decide_eq_false_2 by done. cbn [negb].
        py_step. reflexivity. }
      py_logged.
  - right. eexists. split.
    { unfold transform. apply run_try_return. py_step.
      py_caught. py_step.
      eapply run_bind; [by apply run_gets_lift|]. cbn beta.
      eapply run_bind_raise. reflexivity. }
    py_logged.
  - right. eexists. split.
    { unfold transform. apply run_try_return. py_step.
      py_caught. py_step.
      eapply run_bind_raise. by apply run_gets_lift_raise. }
    py_logged.
Qed.

Lemma only_logged_heap w w' : only_logged w w' → heap w' = heap w.
Proof. by intros [entries ->]. Qed.

(** C10. With a complete rate table, a row whose MC_USD_Billion is
    missing survives [transform]: the stage succeeds, no row is dropped,
    and the row's three converted fields are missing too. *)
Theorem transform_keeps_rows_with_missing_usd w df d cs rs eur gbp inr_ :
  heap w !! df = Some d →
  exchange_rate_csv w = Return {| Currency := Some cs; Rate := Some rs |} →
  dict cs rs !! "EUR" = Some eur →
  dict cs rs !! "GBP" = Some gbp →
  dict cs rs !! "INR" = Some inr_ →
  ∃ w' d',
    transform (Some df) w = (Return (Some df), w') ∧
    heap w' !! df = Some d' ∧
    Name d' = Name d ∧
    MC_USD_Billion d' = MC_USD_Billion d ∧
    ∀ i row, iloc d i = Some row →
      F64.is_nan (record_MC_USD_Billion row) = true →
      iloc d' i =
        Some {| record_Name := record_Name row;
                record_MC_USD_Billion := F64.nan;
                record_MC_GBP_Billion := Some F64.nan;
                record_MC_EUR_Billion := Some F64.nan;
                record_MC_INR_Billion := Some F64.nan |}.
Proof.
  intros Hd Hcsv He Hg Hi.
  eexists _, (enrich eur gbp inr_ d). split; [by eapply transform_run|].
  split; [|split; [done|split; [done|]]].
  - py_world. apply list_lookup_insert_eq. by eapply lookup_lt_Some.
  - intros i row Hrow Hnan. unfold iloc in *. cbn [enrich Name MC_USD_Billion
      MC_GBP_Billion MC_EUR_Billion MC_INR_Billion].
    destruct (Name d !! i) as [name|]; [|done].
    destruct (MC_USD_Billion d !! i) as [usd|] eqn:Hu; [|done].
    cbn in Hrow. injection Hrow as <-. cbn in Hnan.
    destruct usd; try discriminate.
    cbn. unfold convert. rewrite !list_lookup_fmap, Hu. reflexivity.
Qed.

(** Two banks, the second without a market cap, meet the hypotheses
    of C10. *)
Lemma transform_keeps_rows_with_missing_usd_witness :
  heap Scenario.extracted_two !! 0%nat = Some Scenario.two_banks ∧
  ∃ w' d',
    transform (Some 0%nat) Scenario.extracted_two = (Return (Some 0%nat), w') ∧
    heap w' !! 0%nat = Some d' ∧
    iloc d' 1 =
      Some {| record_Name := "Bank B";
              record_MC_USD_Billion := F64.nan;
              record_MC_GBP_Billion := Some F64.nan;
              record_MC_EUR_Billion := Some F64.nan;
              record_MC_INR_Billion := Some F64.nan |}.
Proof.
  split; [reflexivity|].
  destruct (transform_keeps_rows_with_missing_usd Scenario.extracted_two 0%nat
              Scenario.two_banks ["EUR"; "GBP"; "INR"]
              [F64.dec 93 2; F64.dec 80 2; F64.dec 821 1]
              (F64.dec 93 2) (F64.dec 80 2) (F64.dec 821 1))
    as (w' & d' & Hrun & Hd' & _ & _ & Hrows);
    [reflexivity | reflexivity | vm_compute; reflexivity ..|].
  exists w', d'. split; [exact Hrun|]. split; [exact Hd'|].
  exact (Hrows 1%nat _ eq_refl eq_refl).
Defined.

(** C4. When the rate file can be read but lacks one of EUR, GBP and
    INR, [transform] returns absent for every Dataset it is given; no
    DataFrame is touched, nothing is written, and the log names the
    missing codes. *)
Theorem transform_absent_when_currency_missing w df rf cs c :
  exchange_rate_csv w = Return rf →
  Currency rf = Some cs →
  c ∈ required_currencies →
  c ∉ cs →
  ∃ w',
    transform (Some df) w = (Return None, w') ∧
    heap w' = heap w ∧
    Largest_banks_data_csv w' = Largest_banks_data_csv w ∧
    Banks_db w' = Banks_db w ∧
    code_log w' =
      code_log w ++
        [info "Starting data transformation";
         info "Reading exchange rates from exchange_rate.csv";
         info_missing (required_currencies ∖ list_to_set cs)] ∧
    c ∈ required_currencies ∖ list_to_set (C:=gset string) cs.
Proof.
  intros Hcsv Hcs Hc Hnot.
  assert (Hsub : ¬ required_currencies ⊆ list_to_set (C:=gset string) cs).
  { intros Hsub. apply Hnot. apply (elem_of_list_to_set (C:=gset string)). auto. }
  eexists. split.
  { unfold transform. apply run_try_return. py_step.
    apply run_try_return. py_step.
    eapply run_bind; [by apply run_gets_lift|]. cbn beta.
    rewrite Hcs. py_step. cbn zeta.
    rewrite bool_decide_eq_false_2 by done. cbn [negb].
    py_step. reflexivity. }
  py_world. rewrite <- !app_assoc.
  repeat split; try reflexivity.
  apply elem_of_difference. split; [done|].
  by rewrite elem_of_list_to_set.
Qed.

(** A rate file without INR meets the hypotheses of C4. *)
Lemma transform_absent_when_currency_missing_witness :
  "INR" ∈ required_currencies ∧
  ("INR" ∉ ["EUR"; "GBP"; "USD"]) ∧
  ∃ w',
    transform (Some 0%nat) Scenario.extracted_without_inr = (Return None, w') ∧
    heap w' = [Scenario.bank_a].
Proof.
  assert (Hc : "INR" ∈ required_currencies) by (vm_compute; done).
  assert (Hnot : "INR" ∉ ["EUR"; "GBP"; "USD"]).
  { intros H. repeat (apply elem_of_cons in H as [H|H]; [discriminate|]).
    by apply elem_of_nil in H. }
  split; [exact Hc|]. split; [exact Hnot|].
  destruct (transform_absent_when_currency_missing
              Scenario.extracted_without_inr 0%nat Scenario.rates_without_inr
              ["EUR"; "GBP"; "USD"] "INR" eq_refl eq_refl Hc Hnot)
    as (w' & Hrun & Hheap & _).
  exists w'. split; [exact Hrun|exact Hheap].
Defined.



(** ** Text *)

Lemma append_nil_l (s : string) : "" +:+ s = s.
Proof. reflexivity. Qed.

Lemma append_cons c (a b : string) : String c a +:+ b = String c (a +:+ b).
Proof. reflexivity. Qed.

Lemma prefix_app p s : String.prefix p s = true ↔ ∃ b, s = p +:+ b.
Proof.
  revert s. induction p as [|c p IH]; intros s.
  - split; [intros _; exists s; reflexivity|by destruct s].
  - destruct s as [|c' s]; simpl.
    + split; [done|]. intros [b Hb]. by rewrite append_cons in Hb.
    + destruct (Ascii.ascii_dec c c') as [->|Hne].
      * rewrite IH. split; intros [b Hb]; exists b.
        -- by rewrite append_cons, <- Hb.
        -- rewrite append_cons in Hb. by injection Hb.
      * split; [done|]. intros [b Hb]. rewrite append_cons in Hb.
        injection Hb as -> _. done.
Qed.

Lemma contains_nil p : Text.contains p "" = String.prefix p "".
Proof. unfold Text.contains. apply orb_false_r. Qed.

Lemma contains_cons p c s :
  Text.contains p (String c s) =
  String.prefix p (String c s) || Text.contains p s.
Proof. reflexivity. Qed.

Lemma contains_app p s : Text.contains p s = true ↔ ∃ a b, s = a +:+ p +:+ b.
Proof.
  induction s as [|c s IH]; [rewrite contains_nil|rewrite contains_cons].
  - rewrite prefix_app. split.
    + intros [b Hb]. by exists "", b.
    + intros (a & b & Hab). destruct a as [|c a]; [by exists b|].
      by rewrite append_cons in Hab.
  - rewrite orb_true_iff, prefix_app, IH. split.
    + intros [[b Hb]|(a & b & Hab)].
      * by exists "", b.
      * exists (String c a), b. by rewrite append_cons, <- Hab.
    + intros (a & b & Hab). destruct a as [|c' a].
      * left. by exists b.
      * right. rewrite append_cons in Hab. injection Hab as _ ->. by exists a, b.
Qed.

(** [strip] takes off the white space of Unicode at both ends, a
    no-break space (U+00A0) and an em space (U+2003) as well as a blank
    or a line feed, and nothing else: a zero-width space (U+200B) is not
    white space. *)
Lemma strip_white_space :
  Text.strip (String "194" (String "160" " Bank name"
              +:+ String "226" (String "128" (String "131" newline))))
    = "Bank name" ∧
  Text.strip (String "226" (String "128" (String "139" "Bank name")))
    = String "226" (String "128" (String "139" "Bank name")) ∧
  Text.strip "  Market cap (US$ billion) " = "Market cap (US$ billion)".
Proof. repeat split; vm_compute; reflexivity. Qed.

Lemma replace_comma_filter s :
  String.list_ascii_of_string (Text.replace_comma s) =
  filter (λ c, c ≠ ","%char) (String.list_ascii_of_string s).
Proof.
  induction s as [|c s IH]; simpl; [done|].
  destruct (Ascii.eqb c ",") eqn:Hc.
  - apply Ascii.eqb_eq in Hc as ->. by rewrite filter_cons_False by auto.
  - apply Ascii.eqb_neq in Hc. rewrite filter_cons_True by done.
    simpl. by rewrite IH.
Qed.

(** ** The search for the table *)

Lemma scan_headers_spec headers :
  scan_headers headers = true ↔
  ∃ header, header ∈ headers ∧ ∃ a b, header = a +:+ "Market cap" +:+ b.
Proof.
  induction headers as [|h hs IH]; simpl.
  - split; [done|]. intros (h & Hh & _). by apply elem_of_nil in Hh.
  - destruct (negb (String.eqb h "") && Text.contains "Market cap" h) eqn:Hh.
    + split; [intros _|done]. apply andb_true_iff in Hh as [_ Hh].
      exists h. split; [constructor|]. by apply contains_app.
    + rewrite IH. split.
      * intros (h' & Hin & Hc). exists h'. split; [by constructor|done].
      * intros (h' & Hin & Hc). apply elem_of_cons in Hin as [->|Hin].
        -- exfalso. apply andb_false_iff in Hh as [Hh|Hh].
           ++ apply negb_false_iff, String.eqb_eq in Hh. subst.
              destruct Hc as (a & b & Hab). destruct a; [done|].
              by rewrite append_cons in Hab.
           ++ apply contains_app in Hc. congruence.
        -- by exists h'.
Qed.

Lemma scan_headers_market_cap t :
  scan_headers (Html.th t) = true ↔ mentions_market_cap t.
Proof. apply scan_headers_spec. Qed.

Lemma scan_tables_first soup t :
  scan_tables (find_all_wikitable soup) = Some t ↔
  first_market_cap_table soup t.
Proof.
  unfold find_all_wikitable, first_market_cap_table, market_cap_table, wikitable.
  induction soup as [|t0 soup IH]; simpl.
  - split; [done|]. intros (before & after & H & _). by destruct before.
  - rewrite filter_cons. destruct (decide ("wikitable" ∈ Html.classes t0)) as [Hw|Hw];
      simpl; [destruct (scan_headers (Html.th t0)) eqn:Hs|].
    + split.
      * intros [= <-]. exists [], soup. split; [done|].
        split; [by rewrite <- scan_headers_market_cap|].
        intros t' Ht'. by apply elem_of_nil in Ht'.
      * intros (before & after & Hsoup & [_ Hm] & Hfirst).
        destruct before as [|t1 before]; simpl in Hsoup.
        -- by injection Hsoup as ->.
        -- injection Hsoup as -> _. exfalso.
           apply (Hfirst t1); [constructor|].
           by rewrite <- scan_headers_market_cap.
    + rewrite IH. split.
      * intros (before & after & -> & Hm & Hfirst).
        exists (t0 :: before), after. split; [done|]. split; [done|].
        intros t' Ht'. apply elem_of_cons in Ht' as [->|Ht']; [|by apply Hfirst].
        rewrite <- scan_headers_market_cap. intros [_ ?]. congruence.
      * intros (before & after & Hsoup & Hm & Hfirst).
        destruct before as [|t1 before]; simpl in Hsoup.
        -- injection Hsoup as -> ->. destruct Hm as [_ Hm].
           apply scan_headers_market_cap in Hm. congruence.
        -- injection Hsoup as -> ->. exists before, after.
           split; [done|]. split; [done|].
           intros t' Ht'. apply Hfirst. by constructor.
    + rewrite IH. split.
      * intros (before & after & -> & Hm & Hfirst).
        exists (t0 :: before), after. split; [done|]. split; [done|].
        intros t' Ht'. apply elem_of_cons in Ht' as [->|Ht']; [|by apply Hfirst].
        by intros [? _].
      * intros (before & after & Hsoup & Hm & Hfirst).
        destruct before as [|t1 before]; simpl in Hsoup.
        -- injection Hsoup as -> ->. by destruct Hm.
        -- injection Hsoup as -> ->. exists before, after.
           split; [done|]. split; [done|].
           intros t' Ht'. apply Hfirst. by constructor.
Qed.

Lemma scan_tables_none soup :
  (∀ t, t ∈ soup → ¬ market_cap_table t) →
  scan_tables (find_all_wikitable soup) = None.
Proof.
  intros Hnone.
  destruct (scan_tables (find_all_wikitable soup)) as [t|] eqn:Hscan; [|done].
  apply scan_tables_first in Hscan as (before & after & -> & Hm & _).
  exfalso. apply (Hnone t); [|done]. apply elem_of_app. right. constructor.
Qed.


(** ** The selection of the two columns *)

Lemma labelled_cons key l c labels data :
  Html.labelled key (l :: labels) (c :: data) =
  (if decide (l = key) then [c] else []) ++ Html.labelled key labels data.
Proof. unfold Html.labelled. cbn. by destruct (decide (l = key)). Qed.

Lemma labelled_nil key labels data :
  Html.labelled key labels data = [] ↔
  ∀ j c, labels !! j = Some key → data !! j = Some c → False.
Proof.
  revert data. induction labels as [|l labels IH]; intros [|c data].
  - split; [|done]. by intros _ [].
  - split; [|done]. by intros _ [].
  - split; [|done]. by intros _ [].
  - rewrite labelled_cons. destruct (decide (l = key)) as [->|Hne].
    + split; [done|]. intros H. by destruct (H 0%nat c).
    + cbn [app]. rewrite IH. split.
      * intros H [|j] c'; cbn; [congruence|apply H].
      * intros H j c'. apply (H (S j)).
Qed.

Lemma labelled_singleton key labels data col :
  Html.labelled key labels data = [col] ↔ only_column labels data key col.
Proof.
  unfold only_column.
  revert data. induction labels as [|l labels IH]; intros [|c data].
  - split; [done|]. by intros (i & ? & _).
  - split; [done|]. by intros (i & ? & _).
  - split; [done|]. by intros ([|i] & _ & ? & _).
  - rewrite labelled_cons. destruct (decide (l = key)) as [->|Hne].
    + cbn [app]. split.
      * intros [= -> Hnil]. exists 0%nat. do 2 (split; [done|]).
        intros [|j] c' Hj Hc'; [done|].
        exfalso. by eapply (proj1 (labelled_nil _ _ _) Hnil).
      * intros ([|i] & Hl & Hc & Honly).
        -- injection Hc as ->. f_equal. apply labelled_nil.
           intros j c' Hj Hc'. by specialize (Honly (S j) c' Hj Hc').
        -- by specialize (Honly 0%nat c eq_refl eq_refl).
    + cbn [app]. rewrite IH. split.
      * intros (i & Hl & Hc & Honly). exists (S i). do 2 (split; [done|]).
        intros [|j] c' Hj Hc'; [cbn in Hj; congruence|].
        f_equal. by eapply Honly.
      * intros ([|i] & Hl & Hc & Honly); [cbn in Hl; congruence|].
        exists i. do 2 (split; [done|]).
        intros j c' Hj Hc'. specialize (Honly (S j) c' Hj Hc'). congruence.
Qed.

(** [select] succeeds where each of the two labels names one column,
    and takes those two. *)
Lemma select_spec labels data names caps :
  select labels data = Return (names, caps) ↔
  only_column labels data "Bank name" names ∧
  only_column labels data "Market cap (US$ billion)" caps.
Proof.
  rewrite <- !labelled_singleton. unfold select. split.
  - destruct (Html.labelled "Bank name" labels data) as [|n [|]];
      destruct (Html.labelled "Market cap (US$ billion)" labels data)
        as [|c [|]]; try discriminate.
    by intros [= -> ->].
  - by intros [-> ->].
Qed.

Lemma extractable_spec to_float w d :
  extractable to_float w d ↔ market_cap_dataset to_float w d.
Proof.
  split.
  - intros (soup & t & frame & names & caps & Hpage & Hscan & Hread & Hsel & ->).
    apply scan_tables_first in Hscan. apply select_spec in Hsel as [Hn Hc].
    by exists soup, t, frame, names, caps.
  - intros (soup & t & frame & names & caps & Hpage & Hfirst & Hread & Hn & Hc
            & H1 & H2 & H3 & H4 & H5).
    exists soup, t, frame, names, caps.
    split; [done|]. split; [by apply scan_tables_first|]. split; [done|].
    split; [by apply select_spec|].
    destruct d. cbn in *. by subst.
Qed.


(** ** [extract] *)

(** The DataFrame that [extract] builds from the two selected columns. *)
Lemma extract_run to_float w soup t frame names caps :
  page w = Return soup →
  scan_tables (find_all_wikitable soup) = Some t →
  Html.read_html t = Return frame →
  select (Text.strip <$> Html.innermost (Html.columns frame)) (Html.data frame)
    = Return (names, caps) →
  extract to_float w =
    (Return (Some (length (heap w))),
     World (page w) (exchange_rate_csv w) (io_faults w)
           (heap w ++ [{| Name := names;
                          MC_USD_Billion := clean to_float <$> caps;
                          MC_GBP_Billion := None;
                          MC_EUR_Billion := None;
                          MC_INR_Billion := None |}])
           (Largest_banks_data_csv w) (Banks_db w)
           (code_log w ++
              [info "Starting data extraction from Wikipedia";
               info "Making HTTP request to Wikipedia";
               info "Locating market capitalization table";
               info "Target table found - processing data";
               info_columns (Html.columns frame);
               info "Data extraction completed successfully"])
           (console w) (stdout_faults w)).
Proof.
  intros Hpage Hscan Hread Hsel.
  unfold extract. apply run_try_return. py_step. py_step.
  eapply run_bind; [by apply run_gets_lift|]. cbn beta.
  py_step. cbn zeta. rewrite Hscan.
  py_step. rewrite Hread. py_step. py_step. rewrite Hsel.
  py_step. py_step. py_step. unfold mret, py_ret. f_equal.
  apply world_eq; py_world; rewrite <- ?app_assoc; reflexivity.
Qed.

Lemma extract_not_found to_float w soup :
  page w = Return soup →
  scan_tables (find_all_wikitable soup) = None →
  extract to_float w =
    (Return None,
     with_log (code_log w ++
                 [info "Starting data extraction from Wikipedia";
                  info "Making HTTP request to Wikipedia";
                  info "Locating market capitalization table";
                  info "Error: Target table not found!"]) w).
Proof.
  intros Hpage Hscan.
  unfold extract. apply run_try_return. py_step. py_step.
  eapply run_bind; [by apply run_gets_lift|]. cbn beta.
  py_step. cbn zeta. rewrite Hscan.
  py_step. unfold mret, py_ret. f_equal.
  apply world_eq; py_world; rewrite <- ?app_assoc; reflexivity.
Qed.

(** C5. Among the wiki-style tables of the page, [extract] takes the
    first, in document order, with a header cell whose text contains
    "Market cap", and builds the Dataset from it; when no table
    matches, [extract] returns absent on its normal path: the log ends
    with the table-not-found message and no exception was caught. *)
Theorem extract_selects_first_market_cap_table to_float w soup :
  page w = Return soup →
  (∀ t, scan_tables (find_all_wikitable soup) = Some t ↔
        first_market_cap_table soup t) ∧
  (∀ t frame names caps,
     first_market_cap_table soup t →
     Html.read_html t = Return frame →
     select (Text.strip <$> Html.innermost (Html.columns frame))
            (Html.data frame) = Return (names, caps) →
     ∃ w',
       extract to_float w = (Return (Some (length (heap w))), w') ∧
       heap w' = heap w ++ [{| Name := names;
                               MC_USD_Billion := clean to_float <$> caps;
                               MC_GBP_Billion := None;
                               MC_EUR_Billion := None;
                               MC_INR_Billion := None |}]) ∧
  ((∀ t, t ∈ soup → ¬ market_cap_table t) →
   extract to_float w =
     (Return None,
      with_log (code_log w ++
                  [info "Starting data extraction from Wikipedia";
                   info "Making HTTP request to Wikipedia";
                   info "Locating market capitalization table";
                   info "Error: Target table not found!"]) w)).
Proof.
  intros Hpage. split; [|split].
  - intros t. apply scan_tables_first.
  - intros t frame names caps Hfirst Hread Hsel.
    apply scan_tables_first in Hfirst.
    eexists. split; [by eapply extract_run|]. reflexivity.
  - intros Hnone. eapply extract_not_found; [done|].
    by apply scan_tables_none.
Qed.

(** The page of the scenario, whose second table is the first with a
    market-cap header, meets the hypothesis of C5. *)
Lemma extract_selects_first_market_cap_table_witness :
  page Scenario.fresh = Return [Scenario.assets_table; Scenario.market_cap_table] ∧
  first_market_cap_table [Scenario.assets_table; Scenario.market_cap_table]
    Scenario.market_cap_table ∧
  ∃ w',
    extract Decimal.to_float Scenario.fresh = (Return (Some 0%nat), w') ∧
    heap w' = [Scenario.bank_a].
Proof.
  destruct (extract_selects_first_market_cap_table Decimal.to_float
              Scenario.fresh [Scenario.assets_table; Scenario.market_cap_table]
              eq_refl) as (Hscan & Hrun & _).
  assert (Hfirst : first_market_cap_table
                     [Scenario.assets_table; Scenario.market_cap_table]
                     Scenario.market_cap_table)
    by (apply Hscan; vm_compute; reflexivity).
  split; [reflexivity|]. split; [exact Hfirst|].
  destruct (Hrun Scenario.market_cap_table _ ["Bank A"] ["100.0"]
              Hfirst eq_refl) as (w' & Hex & Hheap);
    [vm_compute; reflexivity|].
  exists w'. split; [exact Hex|].
  etrans; [exact Hheap|]. vm_compute. reflexivity.
Defined.

(** C6. The numeric cleanup of a market-cap cell first removes every
    comma and then coerces what is left to a number, so "1,234.5" is
    read as "1234.5" and yields 1234.5; a cell that still fails the
    coercion becomes a missing value in its row, and the extraction
    completes with one row per cell. *)
Theorem extract_cleans_market_cap to_float w soup t frame names caps :
  page w = Return soup →
  scan_tables (find_all_wikitable soup) = Some t →
  Html.read_html t = Return frame →
  select (Text.strip <$> Html.innermost (Html.columns frame)) (Html.data frame)
    = Return (names, caps) →
  (∀ cell,
     clean to_float cell = to_numeric to_float (Text.replace_comma cell) ∧
     String.list_ascii_of_string (Text.replace_comma cell) =
       filter (λ c, c ≠ ","%char) (String.list_ascii_of_string cell)) ∧
  Text.replace_comma "1,234.5" = "1234.5" ∧
  (to_float "1234.5" = Some (F64.dec 12345 1) →
   clean to_float "1,234.5" = F64.dec 12345 1) ∧
  ∃ w' d,
    extract to_float w = (Return (Some (length (heap w))), w') ∧
    heap w' !! length (heap w) = Some d ∧
    Name d = names ∧
    length (MC_USD_Billion d) = length caps ∧
    ∀ i cell, caps !! i = Some cell →
      MC_USD_Billion d !! i = Some (clean to_float cell) ∧
      (to_float (Text.replace_comma cell) = None →
       MC_USD_Billion d !! i = Some F64.nan) ∧
      (∀ v, to_float (Text.replace_comma cell) = Some v →
            MC_USD_Billion d !! i = Some v).
Proof.
  intros Hpage Hscan Hread Hsel. split; [|split; [|split]].
  - intros cell. split; [reflexivity|apply replace_comma_filter].
  - reflexivity.
  - intros Hread_number. unfold clean, to_numeric.
    change (Text.replace_comma "1,234.5") with "1234.5".
    by rewrite Hread_number.
  - eexists _, _. split; [by eapply extract_run|]. py_world.
    split; [by rewrite lookup_app_r, Nat.sub_diag|].
    cbn [Name MC_USD_Billion]. split; [done|].
    split; [by rewrite length_fmap|].
    intros i cell Hcell. rewrite list_lookup_fmap, Hcell. cbn [fmap option_fmap option_map].
    split; [done|]. unfold clean, to_numeric.
    split; [by intros ->|by intros v ->].
Qed.

(** A table with the cells "100.0", "1,234.5" and "n/a", read with
    the reader of decimal literals, meets the hypotheses of C6. *)
Lemma extract_cleans_market_cap_witness :
  page Scenario.fresh_comma = Return [Scenario.assets_table; Scenario.comma_table] ∧
  Decimal.to_float "1234.5" = Some (F64.dec 12345 1) ∧
  Decimal.to_float "n/a" = None ∧
  clean Decimal.to_float "1,234.5" = F64.dec 12345 1 ∧
  ∃ w' d,
    extract Decimal.to_float Scenario.fresh_comma = (Return (Some 0%nat), w') ∧
    heap w' !! 0%nat = Some d ∧
    Name d = ["Bank A"; "Bank B"; "Bank C"] ∧
    MC_USD_Billion d !! 1%nat = Some (F64.dec 12345 1) ∧
    MC_USD_Billion d !! 2%nat = Some F64.nan.
Proof.
  assert (Hnumber : Decimal.to_float "1234.5" = Some (F64.dec 12345 1))
    by (vm_compute; reflexivity).
  destruct (extract_cleans_market_cap Decimal.to_float Scenario.fresh_comma
              [Scenario.assets_table; Scenario.comma_table] Scenario.comma_table
              Scenario.comma_frame ["Bank A"; "Bank B"; "Bank C"] ["100.0"; "1,234.5"; "n/a"]
              eq_refl)
    as (_ & _ & Hcomma & w' & d & Hrun & Hd & Hnames & _ & Hrows);
    [vm_compute; reflexivity | reflexivity | vm_compute; reflexivity |].
  split; [reflexivity|]. split; [exact Hnumber|].
  split; [vm_compute; reflexivity|].
  split; [exact (Hcomma Hnumber)|].
  exists w', d. split; [exact Hrun|]. split; [exact Hd|].
  split; [exact Hnames|]. split.
  - destruct (Hrows 1%nat "1,234.5" eq_refl) as (_ & _ & Hv).
    apply Hv. exact Hnumber.
  - destruct (Hrows 2%nat "n/a" eq_refl) as (_ & Hmissing & _).
    apply Hmissing. vm_compute. reflexivity.
Defined.

(** ** [load_to_db] *)

(** A load that reports success has replaced the table by the rows of
    the DataFrame. *)
Lemma load_to_db_true w df w1 :
  load_to_db (Some df) w = (Return true, w1) →
  ∃ d fs,
    heap w !! df = Some d ∧
    w1 = World (page w) (exchange_rate_csv w) fs (heap w)
               (Largest_banks_data_csv w) (Some (sql_table d))
               (code_log w ++
                  [info "Starting database loading process";
                   info "Data successfully loaded to Banks.db"])
               (console w) (stdout_faults w).
Proof.
  intros Hload. py_cases; eexists _, _; (split; [done|]);
    rewrite <- ?app_assoc; reflexivity.
Qed.

(** ** What [to_sql] stores *)

Lemma of_column_stores col : Forall2 stores col (Sql.of_column col).
Proof.
  unfold Sql.of_column. induction col as [|x col IH]; cbn; constructor; [|done].
  unfold stores, Sql.of_float. by destruct (F64.is_nan x).
Qed.

Lemma sql_table_holds d : holds_rows (sql_table d) d.
Proof.
  unfold holds_rows, sql_table. cbn.
  split; [done|]. split; [apply of_column_stores|].
  repeat split.
  - destruct (MC_GBP_Billion d); constructor. apply of_column_stores.
  - destruct (MC_EUR_Billion d); constructor. apply of_column_stores.
  - destruct (MC_INR_Billion d); constructor. apply of_column_stores.
Qed.




(** ** The order of floats *)

Lemma ltb_irrefl x : F64.ltb x x = false.
Proof.
  unfold F64.ltb, SFltb.
  destruct x as [[]|[]| |[] m e]; simpl; try reflexivity;
    rewrite Z.compare_refl, Pos.compare_cont_refl; reflexivity.
Qed.

Lemma compare_cont_lt_trans m1 m2 m3 :
  Pos.compare_cont Eq m1 m2 = Lt → Pos.compare_cont Eq m2 m3 = Lt →
  Pos.compare_cont Eq m1 m3 = Lt.
Proof.
  change (Pos.compare_cont Eq) with Pos.compare.
  rewrite !Pos.compare_lt_iff. lia.
Qed.

Lemma finite_order_trans e1 e2 e3 m1 m2 m3 :
  match e1 ?= e2 with Lt => Lt | Gt => Gt | Eq => Pos.compare_cont Eq m1 m2 end = Lt →
  match e2 ?= e3 with Lt => Lt | Gt => Gt | Eq => Pos.compare_cont Eq m2 m3 end = Lt →
  match e1 ?= e3 with Lt => Lt | Gt => Gt | Eq => Pos.compare_cont Eq m1 m3 end = Lt.
Proof.
  destruct (Z.compare_spec e1 e2), (Z.compare_spec e2 e3),
    (Z.compare_spec e1 e3); try discriminate; try lia; subst; auto.
  apply compare_cont_lt_trans.
Qed.

Lemma finite_order_trans_neg e1 e2 e3 m1 m2 m3 :
  match e1 ?= e2 with
  | Lt => Gt | Gt => Lt | Eq => CompOpp (Pos.compare_cont Eq m1 m2)
  end = Lt →
  match e2 ?= e3 with
  | Lt => Gt | Gt => Lt | Eq => CompOpp (Pos.compare_cont Eq m2 m3)
  end = Lt →
  match e1 ?= e3 with
  | Lt => Gt | Gt => Lt | Eq => CompOpp (Pos.compare_cont Eq m1 m3)
  end = Lt.
Proof.
  change (Pos.compare_cont Eq) with Pos.compare.
  destruct (Z.compare_spec e1 e2), (Z.compare_spec e2 e3),
    (Z.compare_spec e1 e3); try discriminate; try lia; subst; auto.
  destruct (Pos.compare_spec m1 m2), (Pos.compare_spec m2 m3),
    (Pos.compare_spec m1 m3); simpl; try discriminate; try lia; auto.
Qed.

Lemma ltb_trans x y z :
  F64.ltb x y = true → F64.ltb y z = true → F64.ltb x z = true.
Proof.
  unfold F64.ltb, SFltb.
  destruct x as [[]|[]| |[] m1 e1], y as [[]|[]| |[] m2 e2],
    z as [[]|[]| |[] m3 e3]; simpl; try discriminate; try reflexivity.
  - intros H1 H2.
    destruct (match e1 ?= e2 with Lt => Gt | Gt => Lt | Eq => _ end) eqn:E1;
      try discriminate.
    destruct (match e2 ?= e3 with Lt => Gt | Gt => Lt | Eq => _ end) eqn:E2;
      try discriminate.
    by rewrite (finite_order_trans_neg _ _ _ _ _ _ E1 E2).
  - intros H1 H2.
    destruct (match e1 ?= e2 with Lt => Lt | Gt => Gt | Eq => _ end) eqn:E1;
      try discriminate.
    destruct (match e2 ?= e3 with Lt => Lt | Gt => Gt | Eq => _ end) eqn:E2;
      try discriminate.
    by rewrite (finite_order_trans _ _ _ _ _ _ E1 E2).
Qed.

(** Numbers are totally ordered: what is not below a number that is
    not below [z] is not below [z]. *)
Lemma ltb_false_trans x y z :
  F64.is_nan y = false →
  F64.ltb x y = false → F64.ltb y z = false → F64.ltb x z = false.
Proof.
  unfold F64.ltb, SFltb.
  destruct x as [[]|[]| |[] m1 e1], y as [[]|[]| |[] m2 e2],
    z as [[]|[]| |[] m3 e3]; simpl; try discriminate; try reflexivity;
    intros _;
    change (Pos.compare_cont Eq) with Pos.compare;
    destruct (Z.compare_spec e1 e2), (Z.compare_spec e2 e3),
      (Z.compare_spec e1 e3); try discriminate; try lia; subst; auto;
    destruct (Pos.compare_spec m1 m2), (Pos.compare_spec m2 m3),
      (Pos.compare_spec m1 m3); simpl; try discriminate; try lia; auto.
Qed.

(** ** The aggregates of SQL *)

Lemma ltb_nan_l x : F64.ltb F64.nan x = false.
Proof. reflexivity. Qed.

Lemma ltb_nan_r x : F64.ltb x F64.nan = false.
Proof. by destruct x as [[]|[]| |[] m e]. Qed.

Lemma is_nan_eq x : F64.is_nan x = true → x = F64.nan.
Proof. by destruct x. Qed.

Lemma fold_max_nan vs :
  foldl (λ best x, if F64.ltb best x then x else best) F64.nan vs = F64.nan.
Proof. induction vs as [|y vs IH]; [done|]. cbn [foldl]. by rewrite ltb_nan_l. Qed.

Lemma fold_min_nan vs :
  foldl (λ best x, if F64.ltb x best then x else best) F64.nan vs = F64.nan.
Proof. induction vs as [|y vs IH]; [done|]. cbn [foldl]. by rewrite ltb_nan_r. Qed.

Lemma fold_max_spec vs v :
  let m := foldl (λ best x, if F64.ltb best x then x else best) v vs in
  m ∈ v :: vs ∧ ∀ x, x ∈ v :: vs → F64.ltb m x = false.
Proof.
  revert v. induction vs as [|y vs IH]; intros v; cbn zeta.
  - split; [constructor|]. intros x Hx. apply list_elem_of_singleton in Hx as ->.
    apply ltb_irrefl.
  - cbn [foldl]. destruct (F64.ltb v y) eqn:Hvy.
    + destruct (IH y) as [Hin Hmax]. split; [by constructor|].
      intros x Hx. apply elem_of_cons in Hx as [->|Hx]; [|by apply Hmax].
      destruct (F64.ltb _ v) eqn:Hlt; [|done].
      pose proof (Hmax y (list_elem_of_here _ _)) as Hy.
      by rewrite (ltb_trans _ _ _ Hlt Hvy) in Hy.
    + destruct (IH v) as [Hin Hmax]. split.
      * apply elem_of_cons in Hin as [->|Hin]; [constructor|by do 2 constructor].
      * intros x Hx. apply elem_of_cons in Hx as [->|Hx];
          [by apply Hmax; constructor|].
        apply elem_of_cons in Hx as [->|Hx]; [|by apply Hmax; constructor].
        destruct (F64.is_nan v) eqn:Hnan.
        -- apply is_nan_eq in Hnan as ->. by rewrite fold_max_nan.
        -- eapply ltb_false_trans; [exact Hnan| |exact Hvy].
           apply Hmax. constructor.
Qed.

Lemma fold_min_spec vs v :
  let m := foldl (λ best x, if F64.ltb x best then x else best) v vs in
  m ∈ v :: vs ∧ ∀ x, x ∈ v :: vs → F64.ltb x m = false.
Proof.
  revert v. induction vs as [|y vs IH]; intros v; cbn zeta.
  - split; [constructor|]. intros x Hx. apply list_elem_of_singleton in Hx as ->.
    apply ltb_irrefl.
  - cbn [foldl]. destruct (F64.ltb y v) eqn:Hyv.
    + destruct (IH y) as [Hin Hmin]. split; [by constructor|].
      intros x Hx. apply elem_of_cons in Hx as [->|Hx]; [|by apply Hmin].
      destruct (F64.ltb v _) eqn:Hlt; [|done].
      pose proof (Hmin y (list_elem_of_here _ _)) as Hy.
      by rewrite (ltb_trans _ _ _ Hyv Hlt) in Hy.
    + destruct (IH v) as [Hin Hmin]. split.
      * apply elem_of_cons in Hin as [->|Hin]; [constructor|by do 2 constructor].
      * intros x Hx. apply elem_of_cons in Hx as [->|Hx];
          [by apply Hmin; constructor|].
        apply elem_of_cons in Hx as [->|Hx]; [|by apply Hmin; constructor].
        destruct (F64.is_nan v) eqn:Hnan.
        -- apply is_nan_eq in Hnan as ->. rewrite fold_min_nan. apply ltb_nan_r.
        -- eapply ltb_false_trans; [exact Hnan|exact Hyv|].
           apply Hmin. constructor.
Qed.

(** [MAX] is a value of the column that no value of the column exceeds. *)
Lemma MAX_spec col m :
  Sql.MAX col = Some m →
  m ∈ Sql.values col ∧ ∀ x, x ∈ Sql.values col → F64.ltb m x = false.
Proof.
  unfold Sql.MAX. destruct (Sql.values col) as [|v vs]; [done|].
  intros [= <-]. apply fold_max_spec.
Qed.

Lemma MIN_spec col m :
  Sql.MIN col = Some m →
  m ∈ Sql.values col ∧ ∀ x, x ∈ Sql.values col → F64.ltb x m = false.
Proof.
  unfold Sql.MIN. destruct (Sql.values col) as [|v vs]; [done|].
  intros [= <-]. apply fold_min_spec.
Qed.

(** The values an aggregate sees are the cells that are not NULL: on a
    column without NULL, all of them. *)
Lemma values_elem col x : x ∈ Sql.values col ↔ Some x ∈ col.
Proof.
  unfold Sql.values. rewrite list_elem_of_omap. split.
  - by intros ([y|] & Hin & [= ->]).
  - intros Hin. by exists (Some x).
Qed.

(** ** [run_queries] *)

Lemma inv_bind {A B} (m : py A) (f : A → py B) w b w' :
  (m ≫= f) w = (Return b, w') →
  ∃ a w1, m w = (Return a, w1) ∧ f a w1 = (Return b, w').
Proof.
  unfold mbind, py_bind. destruct (m w) as [[a|e] w1]; [eauto|discriminate].
Qed.

Lemma inv_try {A} (body : py A) handler w a w' :
  try_except body handler w = (Return a, w') →
  body w = (Return a, w') ∨
  ∃ e w1, body w = (Raise e, w1) ∧ handler e w1 = (Return a, w').
Proof.
  unfold try_except. destruct (body w) as [[a1|e] w1]; eauto.
Qed.

Lemma inv_logging_info r w u w' :
  logging_info r w = (Return u, w') → w' = with_log (code_log w ++ [r]) w.
Proof. by intros [= <-]. Qed.

Lemma with_stdout_faults_same w : with_stdout_faults (stdout_faults w) w = w.
Proof. by destruct w. Qed.

(** What a [print] does: it writes its line and standard output has
    used up a fault, or it raises one that standard output had in
    store. *)
Lemma print_cases o w :
  (∃ fs, fs `suffix_of` stdout_faults w ∧
         print o w =
           (Return tt,
            with_console (console w ++ [o]) (with_stdout_faults fs w))) ∨
  (∃ e fs, Some e ∈ stdout_faults w ∧
           print o w = (Raise e, with_stdout_faults fs w)).
Proof.
  unfold print. destruct (stdout_faults w) as [|[e|] fs] eqn:Hfs.
  - left. exists []. split; [done|]. by rewrite <- Hfs, with_stdout_faults_same.
  - right. exists e, fs. split; [constructor|done].
  - left. exists fs. split; [by apply suffix_cons_r|done].
Qed.

Lemma inv_print o w u w' :
  print o w = (Return u, w') →
  ∃ fs, w' = with_console (console w ++ [o]) (with_stdout_faults fs w).
Proof.
  intros H. destruct (print_cases o w) as [(fs & _ & Hp)|(e & fs & _ & Hp)];
    rewrite Hp in H; simplify_eq. eauto.
Qed.

Lemma run_print o w :
  stdout_faults w = [] →
  print o w = (Return tt, with_console (console w ++ [o]) w).
Proof. intros H. unfold print. by rewrite H. Qed.

Lemma suffix_elem {A} (x : A) l1 l2 : l1 `suffix_of` l2 → x ∈ l1 → x ∈ l2.
Proof. intros [k ->] H. apply elem_of_app. by right. Qed.

Lemma inv_io w u w' : io w = (Return u, w') → ∃ fs, w' = with_io_faults fs w.
Proof.
  unfold io. destruct (io_faults w) as [|[e|] fs] eqn:Hfs; intros H;
    simplify_eq; eauto.
  exists []. apply world_eq; py_world; done.
Qed.

Lemma inv_read_sql_query {A} (query : Sql.table → result A) w a w' :
  read_sql_query query w = (Return a, w') →
  ∃ t fs, Banks_db w = Some t ∧ query t = Return a ∧ w' = with_io_faults fs w.
Proof.
  unfold read_sql_query. intros H.
  apply inv_bind in H as (u & w1 & Hio & H). apply inv_io in Hio as [fs ->].
  apply inv_bind in H as (db & w2 & Hdb & H). injection Hdb as <- <-.
  py_world. destruct (Banks_db w) as [t|]; [|discriminate].
  unfold lift in H. exists t, fs. by simplify_eq.
Qed.

(** What the reporter returns as its first result is the first query
    on the table. *)
Lemma run_queries_first w t r w' :
  Banks_db w = Some t →
  run_queries w = (Return (Some r), w') →
  Sql.query1 t = Return (Sql.Market_Cap_Analysis r).
Proof.
  intros Hdb Hrun. unfold run_queries in Hrun.
  apply inv_try in Hrun as [Hrun|(e & w1 & _ & Hh)].
  - apply inv_bind in Hrun as (u0 & w0 & Hlog & Hrun).
    apply inv_logging_info in Hlog as ->.
    apply inv_bind in Hrun as (u1 & w1 & Hio & Hrun).
    apply inv_io in Hio as [fs ->].
    apply inv_bind in Hrun as (q1 & w2 & Hq1 & Hrun).
    apply inv_read_sql_query in Hq1 as (t1 & fs1 & Hdb1 & Hq1 & ->).
    py_world. rewrite Hdb in Hdb1. injection Hdb1 as <-.
    apply inv_bind in Hrun as (q2 & w3 & _ & Hrun).
    apply inv_bind in Hrun as (q3 & w4 & _ & Hrun).
    repeat (apply inv_bind in Hrun as (? & ? & _ & Hrun)).
    injection Hrun as <- _. exact Hq1.
  - apply inv_bind in Hh as (? & ? & _ & Hh). discriminate Hh.
Qed.

(** ** [ROUND(x, 2)] *)

Lemma to_int_nonneg x : 0 ≤ F80.to_int x.
Proof.
  destruct x as [| | |[] m e]; unfold F80.to_int; try lia.
  destruct (Z.leb_spec 0 e).
  - apply Z.mul_nonneg_nonneg; [lia|]. by apply Z.pow_nonneg.
  - apply Z.div_pos; [lia|]. apply Z.pow_pos_nonneg; lia.
Qed.

Lemma digits_nonneg n acc st : 0 ≤ acc → 0 ≤ (Sql.Printf.digits n acc st).1.
Proof.
  revert acc st. induction n as [|n IH]; intros acc [val cnt] Hacc; [done|].
  cbn [Sql.Printf.digits]. unfold Sql.Printf.et_getdigit.
  destruct (cnt <=? 0); apply IH; [lia|].
  pose proof (to_int_nonneg val). lia.
Qed.

Lemma hundredths_nonneg x : 0 ≤ Sql.Printf.hundredths x.
Proof.
  unfold Sql.Printf.hundredths. cbn zeta.
  match goal with
  | |- 0 ≤ (let '(_, _) := ?scaled in _) => destruct scaled as [realvalue exp]
  end.
  destruct (exp <? 0); [by apply digits_nonneg|].
  pose proof (digits_nonneg (Z.to_nat (exp + 1)) 0 (realvalue, 16)) as Hint.
  destruct (Sql.Printf.digits (Z.to_nat (exp + 1)) 0 (realvalue, 16))
    as [int_part st].
  apply digits_nonneg, Hint. done.
Qed.

Lemma round2_rounded_or_kept x :
  F64.is_nan x = false → rounded_or_kept x (Sql.round2 x).
Proof.
  intros Hnan. unfold rounded_or_kept, Sql.round2.
  destruct x as [s|s| |s m e]; try done.
  - right. eexists _, _. split; [apply hundredths_nonneg|reflexivity].
  - left. by destruct s.
  - destruct (F64.ltb _ _); [by left|right].
    eexists _, _. split; [apply hundredths_nonneg|reflexivity].
Qed.

(** Numbers whose nearest doubles lie just under the half of a
    hundredth: SQLite rounds them up. *)
Lemma ROUND2_near_ties :
  Sql.round2 (F64.dec 2675 3) = F64.dec 268 2 ∧
  Sql.round2 (F64.dec 1005 3) = F64.dec 101 2 ∧
  Sql.round2 (F64.dec 15 3) = F64.dec 2 2 ∧
  Sql.round2 (F64.dec 92285 3) = F64.dec 9229 2 ∧
  Sql.round2 (F64.dec (-2675) 3) = F64.dec (-268) 2 ∧
  Sql.round2 (F64.dec 12344 3) = F64.dec 1234 2.
Proof. repeat split; vm_compute; reflexivity. Qed.

Lemma ROUND2_rounded_cell a : rounded_cell a (Sql.ROUND2 a).
Proof.
  destruct a as [x|]; [|done]. cbn. eexists. split; [reflexivity|].
  apply round2_rounded_or_kept.
Qed.




(** ** What the stages leave as it is *)

#[local] Instance unchanged_preorder {B} (f : world → B) : PreOrder (unchanged f).
Proof.
  split; [intros w; by unfold unchanged|].
  intros w1 w2 w3 H12 H23. unfold unchanged in *. congruence.
Qed.

#[local] Instance log_grows_preorder : PreOrder log_grows.
Proof.
  split; [intros w; by unfold log_grows|].
  intros w1 w2 w3 H12 H23. unfold log_grows in *. by etrans.
Qed.

#[local] Instance stdout_used_preorder : PreOrder stdout_used.
Proof.
  split; [intros w; by unfold stdout_used|].
  intros w1 w2 w3 H12 H23. unfold stdout_used in *. by etrans.
Qed.

Section Stable.

Context (R : relation world) `{!PreOrder R}.

Lemma stable_ret {A} (a : A) : stable R (mret a).
Proof. intros w. reflexivity. Qed.

Lemma stable_raise {A} e : stable R (raise (A:=A) e).
Proof. intros w. reflexivity. Qed.

Lemma stable_lift {A} (r : result A) : stable R (lift r).
Proof. intros w. reflexivity. Qed.

Lemma stable_gets {A} (f : world → A) : stable R (gets f).
Proof. intros w. reflexivity. Qed.

Lemma stable_deref r : stable R (deref r).
Proof. intros w. unfold deref. destruct (heap w !! r); reflexivity. Qed.

Lemma stable_bind {A B} (m : py A) (f : A → py B) :
  stable R m → (∀ a, stable R (f a)) → stable R (m ≫= f).
Proof.
  intros Hm Hf w. unfold mbind, py_bind. specialize (Hm w).
  destruct (m w) as [[a|e] w1]; [|done].
  etrans; [exact Hm|apply Hf].
Qed.

Lemma stable_try {A} (body : py A) handler :
  stable R body → (∀ e, stable R (handler e)) → stable R (try_except body handler).
Proof.
  intros Hb Hh w. unfold try_except. specialize (Hb w).
  destruct (body w) as [[a|e] w1]; [done|].
  etrans; [exact Hb|apply Hh].
Qed.

Lemma stable_modify (f : world → world) :
  (∀ w, R w (f w)) → stable R (modify f).
Proof. intros Hf w. apply Hf. Qed.

Lemma stable_new d :
  (∀ w, R w (with_heap (heap w ++ [d]) w)) → stable R (new d).
Proof. intros Hn w. apply Hn. Qed.

Lemma stable_print o :
  (∀ w c, R w (with_console c w)) →
  (∀ w x fs, stdout_faults w = x :: fs → R w (with_stdout_faults fs w)) →
  stable R (print o).
Proof.
  intros Hc Hf w. unfold print.
  destruct (stdout_faults w) as [|[e|] fs] eqn:Hfs; cbn [snd];
    [apply Hc|by eapply Hf|].
  etrans; [by eapply Hf|apply Hc].
Qed.

Lemma stable_io :
  (∀ w o fs, io_faults w = o :: fs → R w (with_io_faults fs w)) → stable R io.
Proof.
  intros Hio w. unfold io.
  destruct (io_faults w) as [|[e|] fs] eqn:Hfs; [reflexivity|by eapply Hio..].
Qed.

End Stable.

(** Along the structure of a computation; what a statement does to the
    part of the world in question is left to [side]. *)
Ltac py_stable side :=
  repeat first
    [ progress lazy zeta
    | match goal with
      | |- ∀ _, _ => intro
      | |- stable _ (try_except _ _) => apply stable_try; [apply _|..]
      | |- stable _ (_ ≫= _) => apply stable_bind; [apply _|..]
      | |- stable _ (mret _) => apply stable_ret; apply _
      | |- stable _ (raise _) => apply stable_raise; apply _
      | |- stable _ (lift _) => apply stable_lift; apply _
      | |- stable _ (gets _) => apply stable_gets; apply _
      | |- stable _ (deref _) => apply stable_deref; apply _
      | |- stable _ io => apply stable_io; [apply _|side]
      | |- stable _ (logging_info _) => apply stable_modify; side
      | |- stable _ (print _) => apply stable_print; [apply _|side|side]
      | |- stable _ (new _) => apply stable_new; side
      | |- stable _ (modify _) => apply stable_modify; side
      | |- stable _ (match ?x with _ => _ end) => destruct x
      end ].

Ltac py_same := by intros.

Ltac py_longer :=
  intros; unfold log_grows; py_world; first [reflexivity | by apply prefix_app_r].

Ltac py_used :=
  intros; unfold stdout_used; py_world;
  first [reflexivity | match goal with H : _ = _ :: _ |- _ => rewrite H end;
                       by apply suffix_cons_r].

Ltac py_unfold_stage :=
  unfold main, extract, transform, load_to_csv, load_to_db, run_queries,
    verify_logs, read_sql_query, log_progress, dict_getitem, getitem, assign.

(** ** What the stages catch *)

Ltac py_not_caught H :=
  let context := fresh in let e := fresh in
  destruct H as (context & e & H);
  repeat (apply elem_of_cons in H as [H|H]; [discriminate H|]);
  by apply elem_of_nil in H.

(** One path through a stage: it returns, and where the log shows no
    caught exception the claim about the result is void. *)
Ltac py_leaf :=
  eexists _, _, _; split;
  [split; [reflexivity|py_world; rewrite <- ?app_assoc; reflexivity]
  |first [by intros _ | let H := fresh in intros H; py_not_caught H]].

Lemma extract_catches to_float w :
  ∃ v entries w',
    returns (extract to_float) w v entries w' ∧ (caught entries → v = None).
Proof. unfold returns. py_cases; py_leaf. Qed.

Lemma transform_catches df w :
  ∃ v entries w',
    returns (transform df) w v entries w' ∧ (caught entries → v = None).
Proof. unfold returns. py_cases; py_leaf. Qed.

Lemma load_to_csv_catches df w :
  ∃ v entries w',
    returns (load_to_csv df) w v entries w' ∧ (caught entries → v = false).
Proof. unfold returns. py_cases; py_leaf. Qed.

Lemma load_to_db_catches df w :
  ∃ v entries w',
    returns (load_to_db df) w v entries w' ∧ (caught entries → v = false).
Proof. unfold returns. py_cases; py_leaf. Qed.

(** What is left of a stage that returned, statement by statement. *)
Ltac py_inv H :=
  repeat (let u := fresh "u" in let w1 := fresh "w" in let Hs := fresh "Hs" in
          apply inv_bind in H as (u & w1 & Hs & H);
          first [ apply inv_logging_info in Hs as ->
                | apply inv_io in Hs as [? ->]
                | apply inv_print in Hs as [? ->]
                | apply inv_read_sql_query in Hs as (? & ? & ? & ? & ->) ]).

Lemma run_queries_catches w :
  ∃ v entries w',
    returns run_queries w v entries w' ∧ (caught entries → v = None).
Proof.
  unfold returns, run_queries, try_except.
  match goal with
  | |- context [match ?body w with _ => _ end] =>
      assert (Hlog : stable log_grows body)
        by (unfold read_sql_query, log_progress; py_stable py_longer);
      specialize (Hlog w); destruct (body w) as [[r|e] w1] eqn:Hbody
  end.
  - unfold log_progress in Hbody. py_inv Hbody. injection Hbody as <- <-.
    eexists _, [_; _], _. split.
    + split; [reflexivity|]. py_world. by rewrite <- app_assoc.
    + intros Hcaught. py_not_caught Hcaught.
  - destruct Hlog as [entries Hentries]. cbn [snd] in Hentries.
    eexists None, (entries ++ [_]), _. split; [|done].
    split; [reflexivity|]. py_world. by rewrite Hentries, app_assoc.
Qed.

(** [verify_logs] returns, false where it has printed an error, unless
    the [print] of its handler fails. *)
Lemma verify_logs_catches w :
  (∃ v outs w',
     verify_logs w = (Return v, w') ∧
     console w' = console w ++ outs ∧
     (printed_error outs → v = false)) ∨
  (∃ e w', verify_logs w = (Raise e, w') ∧ Some e ∈ stdout_faults w).
Proof.
  py_cases;
    first
      [ left; eexists _, _, _;
        (split; [reflexivity|]);
        (split; [py_world; rewrite <- ?app_assoc; reflexivity|]);
        first [by intros _ | let H := fresh in intros H; py_not_caught H]
      | right; eexists _, _; split; [reflexivity|];
        try match goal with
            | H : stdout_faults ?x = _ |- _ ∈ stdout_faults ?x => rewrite H
            end;
        by repeat constructor ].
Qed.

(** ** Nothing but [load_to_csv] writes the CSV file *)

Lemma keeps_csv_ret {A} (a : A) : keeps_csv (mret a).
Proof. by intros w. Qed.

Lemma keeps_csv_bind {A B} (m : py A) (f : A → py B) :
  keeps_csv m → (∀ a, keeps_csv (f a)) → keeps_csv (m ≫= f).
Proof.
  intros Hm Hf w. unfold mbind, py_bind. specialize (Hm w).
  destruct (m w) as [[a|e] w1]; [|done].
  etrans; [apply Hf|done].
Qed.

Lemma keeps_csv_try {A} (body : py A) handler :
  keeps_csv body → (∀ e, keeps_csv (handler e)) →
  keeps_csv (try_except body handler).
Proof.
  intros Hb Hh w. unfold try_except. specialize (Hb w).
  destruct (body w) as [[a|e] w1]; [done|].
  etrans; [apply Hh|done].
Qed.

Lemma keeps_csv_raise {A} e : keeps_csv (raise (A:=A) e).
Proof. by intros w. Qed.

Lemma keeps_csv_lift {A} (r : result A) : keeps_csv (lift r).
Proof. by intros w. Qed.

Lemma keeps_csv_gets {A} (f : world → A) : keeps_csv (gets f).
Proof. by intros w. Qed.

Lemma keeps_csv_io : keeps_csv io.
Proof. intros w. unfold io. by destruct (io_faults w) as [|[e|] fs]. Qed.

Lemma keeps_csv_logging_info r : keeps_csv (logging_info r).
Proof. by intros w. Qed.

Lemma keeps_csv_print o : keeps_csv (print o).
Proof. intros w. unfold print. by destruct (stdout_faults w) as [|[e|] fs]. Qed.

Lemma keeps_csv_new d : keeps_csv (new d).
Proof. by intros w. Qed.

Lemma keeps_csv_deref r : keeps_csv (deref r).
Proof. intros w. unfold deref. by destruct (heap w !! r). Qed.

Lemma keeps_csv_modify (f : world → world) :
  (∀ w, Largest_banks_data_csv (f w) = Largest_banks_data_csv w) →
  keeps_csv (modify f).
Proof. intros Hf w. apply Hf. Qed.

(** Along the structure of a computation: statements by the lemmas
    above, sequences and handlers by their parts, branches one by one. *)
Ltac py_frame :=
  repeat first
    [ progress lazy zeta
    | match goal with
      | |- ∀ _, _ => intro
      | |- keeps_csv (try_except _ _) => apply keeps_csv_try
      | |- keeps_csv (_ ≫= _) => apply keeps_csv_bind
      | |- keeps_csv (mret _) => apply keeps_csv_ret
      | |- keeps_csv (raise _) => apply keeps_csv_raise
      | |- keeps_csv (lift _) => apply keeps_csv_lift
      | |- keeps_csv (gets _) => apply keeps_csv_gets
      | |- keeps_csv io => apply keeps_csv_io
      | |- keeps_csv (logging_info _) => apply keeps_csv_logging_info
      | |- keeps_csv (print _) => apply keeps_csv_print
      | |- keeps_csv (new _) => apply keeps_csv_new
      | |- keeps_csv (deref _) => apply keeps_csv_deref
      | |- keeps_csv (modify _) => apply keeps_csv_modify; reflexivity
      | |- keeps_csv (match ?x with _ => _ end) => destruct x
      end ].

Lemma extract_keeps_csv to_float : keeps_csv (extract to_float).
Proof. unfold extract, log_progress. py_frame. Qed.

Lemma transform_keeps_csv df : keeps_csv (transform df).
Proof.
  unfold transform, log_progress, dict_getitem, getitem, assign. py_frame.
Qed.

Lemma load_to_db_keeps_csv df : keeps_csv (load_to_db df).
Proof. unfold load_to_db, log_progress. py_frame. Qed.

Lemma run_queries_keeps_csv : keeps_csv run_queries.
Proof. unfold run_queries, read_sql_query, log_progress. py_frame. Qed.

Lemma verify_logs_keeps_csv : keeps_csv verify_logs.
Proof. unfold verify_logs. py_frame. Qed.

Lemma main_keeps_csv to_float : keeps_csv (main to_float).
Proof.
  pose proof (extract_keeps_csv to_float).
  pose proof transform_keeps_csv. pose proof load_to_db_keeps_csv.
  pose proof run_queries_keeps_csv. pose proof verify_logs_keeps_csv.
  unfold main, log_progress. py_frame; auto.
Qed.

(** ** What reaches [main] *)

Lemma never_raises_returns {A} (stage : py A) (P : A → list log_record → Prop) :
  (∀ w, ∃ v entries w', returns stage w v entries w' ∧ P v entries) →
  never_raises stage.
Proof. intros H w. destruct (H w) as (v & ? & w' & [Hrun _] & _). eauto. Qed.

Lemma extract_never_raises to_float : never_raises (extract to_float).
Proof. eapply never_raises_returns, extract_catches. Qed.

Lemma transform_never_raises df : never_raises (transform df).
Proof. eapply never_raises_returns, transform_catches. Qed.

Lemma load_to_db_never_raises df : never_raises (load_to_db df).
Proof. eapply never_raises_returns, load_to_db_catches. Qed.

Lemma run_queries_never_raises : never_raises run_queries.
Proof. eapply never_raises_returns, run_queries_catches. Qed.

Lemma stdout_errors_bind {A B} (m : py A) (f : A → py B) :
  raises_only_stdout_errors m → (∀ a, raises_only_stdout_errors (f a)) →
  raises_only_stdout_errors (m ≫= f).
Proof.
  intros Hm Hf w. unfold mbind, py_bind. specialize (Hm w).
  destruct (m w) as [[a|e] w1]; [|done].
  specialize (Hf a w1). destruct (f a w1) as [[b|e] w2].
  - by etrans.
  - unfold stdout_used in Hm. destruct Hm as [k ->].
    apply elem_of_app. by right.
Qed.

Lemma stdout_errors_never {A} (m : py A) :
  never_raises m → stable stdout_used m → raises_only_stdout_errors m.
Proof.
  intros Hnever Hused w. specialize (Hused w).
  destruct (Hnever w) as (a & w' & Hrun). by rewrite Hrun in *.
Qed.

Lemma stdout_errors_ret {A} (a : A) : raises_only_stdout_errors (mret a).
Proof. intros w. by unfold mret, py_ret, stdout_used. Qed.

Lemma stdout_errors_logging_info r : raises_only_stdout_errors (logging_info r).
Proof. intros w. by unfold logging_info, modify, stdout_used. Qed.

Lemma verify_logs_stdout_errors : raises_only_stdout_errors verify_logs.
Proof.
  intros w.
  assert (Hused : stable stdout_used verify_logs)
    by (unfold verify_logs; py_stable py_used).
  specialize (Hused w).
  destruct (verify_logs_catches w)
    as [(v & outs & w' & Hrun & _)|(e & w' & Hrun & He)]; by rewrite Hrun in *.
Qed.

Lemma main_stdout_errors to_float : raises_only_stdout_errors (main to_float).
Proof.
  unfold main, log_progress.
  apply stdout_errors_bind; [apply stdout_errors_logging_info|intros _].
  apply stdout_errors_bind.
  { apply stdout_errors_never; [apply extract_never_raises|].
    py_unfold_stage; py_stable py_used. }
  intros [df|]; [|apply stdout_errors_logging_info].
  apply stdout_errors_bind.
  { apply stdout_errors_never; [apply transform_never_raises|].
    py_unfold_stage; py_stable py_used. }
  intros [df'|]; [|apply stdout_errors_logging_info].
  apply stdout_errors_bind.
  { apply stdout_errors_never; [apply load_to_db_never_raises|].
    py_unfold_stage; py_stable py_used. }
  intros db_success.
  apply stdout_errors_bind.
  { destruct db_success; [|apply stdout_errors_ret].
    apply stdout_errors_bind; [|intros _; apply stdout_errors_ret].
    apply stdout_errors_never; [apply run_queries_never_raises|].
    py_unfold_stage; py_stable py_used. }
  intros _.
  apply stdout_errors_bind; [apply verify_logs_stdout_errors|intros _].
  apply stdout_errors_logging_info.
Qed.



(** C1, on the code: a run in which [extract] and [transform] both
    succeed loads the database and leaves the CSV file unwritten.
    [main] never calls [load_to_csv]: no run of [main] changes the file
    at [CSV_OUTPUT_PATH]; in the scenario of one bank the table is
    loaded, the file is still absent at the end, and [load_to_csv] is
    what would have written it. *)
Theorem main_skips_the_csv_sink :
  (∀ to_float w,
     Largest_banks_data_csv (main to_float w).2 = Largest_banks_data_csv w) ∧
  (extract Decimal.to_float Scenario.fresh).1 = Return (Some 0%nat) ∧
  (transform (Some 0%nat) (extract Decimal.to_float Scenario.fresh).2).1
    = Return (Some 0%nat) ∧
  Banks_db (main Decimal.to_float Scenario.fresh).2
    = Some (sql_table Scenario.bank_a_transformed) ∧
  Largest_banks_data_csv (main Decimal.to_float Scenario.fresh).2 = None ∧
  Largest_banks_data_csv
    (load_to_csv (Some 0%nat) (main Decimal.to_float Scenario.fresh).2).2
    = Some Scenario.bank_a_transformed.
Proof.
  split; [intros to_float w; apply main_keeps_csv|].
  repeat split; vm_compute; reflexivity.
Qed.

(** * Further properties of the pipeline *)

(** X6. The log is append-only: no stage, and no run of [main],
    removes or alters an entry that is already in [code_log.txt]. *)
Theorem log_is_append_only to_float df w :
  code_log w `prefix_of` code_log (extract to_float w).2 ∧
  code_log w `prefix_of` code_log (transform df w).2 ∧
  code_log w `prefix_of` code_log (load_to_csv df w).2 ∧
  code_log w `prefix_of` code_log (load_to_db df w).2 ∧
  code_log w `prefix_of` code_log (run_queries w).2 ∧
  code_log w `prefix_of` code_log (verify_logs w).2 ∧
  code_log w `prefix_of` code_log (main to_float w).2.
Proof.
  assert (Hextract : stable log_grows (extract to_float))
    by (py_unfold_stage; py_stable py_longer).
  assert (Htransform : ∀ df, stable log_grows (transform df))
    by (py_unfold_stage; py_stable py_longer).
  assert (Hcsv : ∀ df, stable log_grows (load_to_csv df))
    by (py_unfold_stage; py_stable py_longer).
  assert (Hdb : ∀ df, stable log_grows (load_to_db df))
    by (py_unfold_stage; py_stable py_longer).
  assert (Hqueries : stable log_grows run_queries)
    by (py_unfold_stage; py_stable py_longer).
  assert (Hverify : stable log_grows verify_logs)
    by (py_unfold_stage; py_stable py_longer).
  assert (Hmain : stable log_grows (main to_float)).
  { unfold main, log_progress. py_stable py_longer; auto. }
  repeat split; [apply Hextract|apply Htransform|apply Hcsv|apply Hdb
                |apply Hqueries|apply Hverify|apply Hmain].
Qed.

(** X7. Only [load_to_db] writes the table: [extract], [transform],
    [load_to_csv], [run_queries] and [verify_logs] leave
    [Largest_banks] as it is. *)
Theorem only_load_to_db_writes_the_table to_float df w :
  Banks_db (extract to_float w).2 = Banks_db w ∧
  Banks_db (transform df w).2 = Banks_db w ∧
  Banks_db (load_to_csv df w).2 = Banks_db w ∧
  Banks_db (run_queries w).2 = Banks_db w ∧
  Banks_db (verify_logs w).2 = Banks_db w.
Proof.
  assert (Hextract : stable (unchanged Banks_db) (extract to_float))
    by (py_unfold_stage; py_stable py_same).
  assert (Htransform : stable (unchanged Banks_db) (transform df))
    by (py_unfold_stage; py_stable py_same).
  assert (Hcsv : stable (unchanged Banks_db) (load_to_csv df))
    by (py_unfold_stage; py_stable py_same).
  assert (Hqueries : stable (unchanged Banks_db) run_queries)
    by (py_unfold_stage; py_stable py_same).
  assert (Hverify : stable (unchanged Banks_db) verify_logs)
    by (py_unfold_stage; py_stable py_same).
  repeat split; [apply Hextract|apply Htransform|apply Hcsv
                |apply Hqueries|apply Hverify].
Qed.

(** ** The outcomes of [extract] *)

(** Into the handler of [extract], up to the search for the table. *)
Ltac extract_caught :=
  unfold extract; py_caught; py_step; py_step;
  first [ eapply run_bind; [by apply run_gets_lift|]; cbn beta; py_step; cbn zeta
        | eapply run_bind_raise; by apply run_gets_lift_raise ].

(** The two ways [extract] can go. *)
Lemma extract_cases to_float w :
  (∃ d entries,
     extractable to_float w d ∧
     extract to_float w =
       (Return (Some (length (heap w))),
        with_log (code_log w ++ entries) (with_heap (heap w ++ [d]) w))) ∨
  ((∀ d, ¬ extractable to_float w d) ∧
   ∃ w', extract to_float w = (Return None, w') ∧ only_logged w w').
Proof.
  destruct (page w) as [soup|e] eqn:Hpage.
  - destruct (scan_tables (find_all_wikitable soup)) as [t|] eqn:Hscan.
    + destruct (Html.read_html t) as [frame|e] eqn:Hread.
      * destruct (select (Text.strip <$> Html.innermost (Html.columns frame))
                    (Html.data frame)) as [[names caps]|e] eqn:Hsel.
        -- left. eexists _, _. split; [by exists soup, t, frame, names, caps|].
           erewrite extract_run by done. reflexivity.
        -- right. split.
           { intros d (soup' & t' & frame' & names & caps & H1 & H2 & H3 & H4 & _).
             congruence. }
           eexists. split.
           { extract_caught. rewrite Hscan. py_step. rewrite Hread.
             py_step. py_step. rewrite Hsel. eapply run_bind_raise. reflexivity. }
           py_logged.
      * right. split.
        { intros d (soup' & t' & frame' & names & caps & H1 & H2 & H3 & _).
          congruence. }
        eexists. split.
        { extract_caught. rewrite Hscan. py_step. rewrite Hread.
          eapply run_bind_raise. reflexivity. }
        py_logged.
    + right. split.
      { intros d (soup' & t' & frame' & names & caps & H1 & H2 & _). congruence. }
      eexists. split; [by eapply extract_not_found|]. py_logged.
  - right. split.
    { intros d (soup' & t' & frame' & names & caps & H1 & _). congruence. }
    eexists. split; [extract_caught|]. py_logged.
Qed.

(** X1. [extract] has two outcomes.  When the page can be fetched and
    its first market-cap table parses into a frame in which exactly one
    column is labelled "Bank name" and exactly one "Market cap (US$
    billion)" (by the innermost level of the labels, white space
    apart), it returns a new DataFrame with the cells of the first as
    names and those of the second, cleaned, as numbers, and changes
    nothing else but the log; in every other case (fetch or parse
    error, no such table, a label missing or repeated) it returns
    absent, allocates nothing and changes nothing but the log. *)
Theorem extract_outcome to_float w :
  (∃ d entries,
     market_cap_dataset to_float w d ∧
     extract to_float w =
       (Return (Some (length (heap w))),
        with_log (code_log w ++ entries) (with_heap (heap w ++ [d]) w))) ∨
  ((∀ d, ¬ market_cap_dataset to_float w d) ∧
   ∃ w', extract to_float w = (Return None, w') ∧ only_logged w w').
Proof.
  destruct (extract_cases to_float w)
    as [(d & entries & Hd & Hrun)|[Hnone (w' & Hrun & Hlog)]].
  - left. exists d, entries. split; [by apply extractable_spec|done].
  - right. split; [|by exists w'].
    intros d Hd. apply (Hnone d). by apply extractable_spec.
Qed.

(** A page whose market-cap table has labels on two levels, with white
    space around them, and the two columns among others. *)
Lemma extract_outcome_witness :
  ∃ d w',
    extract Decimal.to_float Scenario.fresh_comma = (Return (Some 0%nat), w') ∧
    heap w' = [d] ∧
    market_cap_dataset Decimal.to_float Scenario.fresh_comma d ∧
    Name d = ["Bank A"; "Bank B"; "Bank C"] ∧
    MC_USD_Billion d = [F64.dec 1000 1; F64.dec 12345 1; F64.nan].
Proof.
  destruct (extract_outcome Decimal.to_float Scenario.fresh_comma)
    as [(d & entries & Hd & Hrun)|(_ & w' & Hrun & _)].
  - exists d. eexists. split; [exact Hrun|]. split; [reflexivity|].
    split; [exact Hd|].
    assert (Hheap : heap (extract Decimal.to_float Scenario.fresh_comma).2 = [d])
      by (rewrite Hrun; reflexivity).
    vm_compute in Hheap. injection Hheap as <-.
    split; vm_compute; reflexivity.
  - vm_compute in Hrun. discriminate Hrun.
Defined.

(** X8. The sinks and the reporter only read the Dataset: [load_to_csv],
    [load_to_db], [run_queries] and [verify_logs] leave every DataFrame
    as it is, and [extract] leaves those that exist as they are, adding
    at most one. *)
Theorem datasets_change_only_in_extract_and_transform to_float df w :
  heap (load_to_csv df w).2 = heap w ∧
  heap (load_to_db df w).2 = heap w ∧
  heap (run_queries w).2 = heap w ∧
  heap (verify_logs w).2 = heap w ∧
  (heap (extract to_float w).2 = heap w ∨
   ∃ d, heap (extract to_float w).2 = heap w ++ [d]).
Proof.
  assert (Hcsv : stable (unchanged heap) (load_to_csv df))
    by (py_unfold_stage; py_stable py_same).
  assert (Hdb : stable (unchanged heap) (load_to_db df))
    by (py_unfold_stage; py_stable py_same).
  assert (Hqueries : stable (unchanged heap) run_queries)
    by (py_unfold_stage; py_stable py_same).
  assert (Hverify : stable (unchanged heap) verify_logs)
    by (py_unfold_stage; py_stable py_same).
  repeat split; [apply Hcsv|apply Hdb|apply Hqueries|apply Hverify|].
  destruct (extract_cases to_float w)
    as [(d & entries & _ & Hrun)|(_ & w' & Hrun & Hlog)];
    rewrite Hrun; cbn [snd].
  - right. by exists d.
  - left. by apply only_logged_heap.
Qed.

(** ** Runs without faults *)

Lemma run_io_nil w : io_faults w = [] → io w = (Return tt, w).
Proof. intros H. unfold io. by rewrite H. Qed.

Lemma run_io_fault w e fs :
  io_faults w = Some e :: fs → io w = (Raise e, with_io_faults fs w).
Proof. intros H. unfold io. by rewrite H. Qed.

Lemma run_deref w r d : heap w !! r = Some d → deref r w = (Return d, w).
Proof. intros H. unfold deref. by rewrite H. Qed.

Ltac py_io := eapply run_bind; [by apply run_io_nil|]; cbn beta.

Ltac py_print := eapply run_bind; [by apply run_print|]; cbn beta.

Lemma load_to_db_run w df d :
  io_faults w = [] →
  heap w !! df = Some d →
  load_to_db (Some df) w =
    (Return true,
     with_log (code_log w ++
                 [info "Starting database loading process";
                  info "Data successfully loaded to Banks.db"])
              (with_db (Some (sql_table d)) w)).
Proof.
  intros Hio Hd. unfold load_to_db. apply run_try_return.
  py_step. py_io. eapply run_bind; [by apply run_deref|]. cbn beta.
  py_io. py_step. py_step. unfold mret, py_ret. f_equal.
  apply world_eq; py_world; rewrite <- ?app_assoc; reflexivity.
Qed.

Lemma load_to_db_connect_fails w df e fs :
  io_faults w = Some e :: fs →
  load_to_db (Some df) w =
    (Return false,
     with_log (code_log w ++
                 [info "Starting database loading process";
                  info_error "Error in database loading: " e])
              (with_io_faults fs w)).
Proof.
  intros Hio. unfold load_to_db.
  eapply run_try_raise.
  { py_step. eapply run_bind_raise. by apply run_io_fault. }
  py_step. unfold mret, py_ret. f_equal.
  apply world_eq; py_world; rewrite <- ?app_assoc; reflexivity.
Qed.

Lemma load_to_csv_run w df d :
  io_faults w = [] →
  heap w !! df = Some d →
  load_to_csv (Some df) w =
    (Return true,
     with_log (code_log w ++
                 [info "Starting CSV file export to ./Largest_banks_data.csv";
                  info "Data successfully exported to ./Largest_banks_data.csv"])
              (with_csv (Some d) w)).
Proof.
  intros Hio Hd. unfold load_to_csv. apply run_try_return.
  py_step. eapply run_bind; [by apply run_deref|]. cbn beta.
  py_io. py_step. py_step. unfold mret, py_ret. f_equal.
  apply world_eq; py_world; rewrite <- ?app_assoc; reflexivity.
Qed.

Lemma read_sql_query_run {A} (query : Sql.table → result A) w t a :
  io_faults w = [] → Banks_db w = Some t → query t = Return a →
  read_sql_query query w = (Return a, w).
Proof.
  intros Hio Hdb Hq. unfold read_sql_query. py_io.
  eapply run_bind; [reflexivity|]. cbn beta. rewrite Hdb. unfold lift.
  by rewrite Hq.
Qed.

Lemma run_queries_run w t q1 q2 q3 :
  io_faults w = [] →
  stdout_faults w = [] →
  Banks_db w = Some t →
  Sql.query1 t = Return q1 →
  Sql.query2 t = Return q2 →
  Sql.query3 t = Return q3 →
  run_queries w =
    (Return (Some {| Sql.Market_Cap_Analysis := q1;
                     Sql.Average_by_Currency := q2;
                     Sql.Bank_Size_Comparison := q3 |}),
     with_log (code_log w ++
                 [info "Starting database queries";
                  info "Database queries completed successfully"])
       (with_console
          (console w ++
             [out_text (newline +:+ "Market Cap Analysis:"); out_query1 q1;
              out_text (newline +:+ "Average by Currency:"); out_query2 q2;
              out_text (newline +:+ "Bank Size Comparison:"); out_query3 q3])
          w)).
Proof.
  intros Hio Hout Hdb H1 H2 H3. unfold run_queries. apply run_try_return.
  py_step. py_io.
  eapply run_bind; [by eapply read_sql_query_run|]. cbn beta.
  eapply run_bind; [by eapply read_sql_query_run|]. cbn beta.
  eapply run_bind; [by eapply read_sql_query_run|]. cbn beta.
  do 6 py_print. py_step. unfold mret, py_ret. f_equal.
  apply world_eq; py_world; rewrite <- ?app_assoc; reflexivity.
Qed.

Lemma verify_logs_run w :
  io_faults w = [] →
  stdout_faults w = [] →
  verify_logs w =
    (Return true,
     with_console (console w ++
                     [out_text (newline +:+ "Log file contents:");
                      out_log (code_log w)]) w).
Proof.
  intros Hio Hout. unfold verify_logs. apply run_try_return.
  py_io. py_step. py_print. py_print. unfold mret, py_ret. f_equal.
  apply world_eq; py_world; rewrite <- ?app_assoc; reflexivity.
Qed.

Lemma verify_logs_fails w e fs :
  io_faults w = Some e :: fs →
  stdout_faults w = [] →
  verify_logs w =
    (Return false,
     with_console (console w ++ [out_error "Error reading log file: " e])
                  (with_io_faults fs w)).
Proof.
  intros Hio Hout. unfold verify_logs.
  eapply run_try_raise; [eapply run_bind_raise; by apply run_io_fault|].
  py_print. reflexivity.
Qed.

(** The three queries succeed on a table that has the converted columns. *)
Lemma queries_of_enriched eur gbp inr_ d :
  ∃ q1 q2 q3,
    Sql.query1 (sql_table (enrich eur gbp inr_ d)) = Return q1 ∧
    Sql.query2 (sql_table (enrich eur gbp inr_ d)) = Return q2 ∧
    Sql.query3 (sql_table (enrich eur gbp inr_ d)) = Return q3.
Proof. by eexists _, _, _. Qed.

(** ** The runs of [main] *)

Lemma extractable_unique to_float w d d' :
  extractable to_float w d → extractable to_float w d' → d = d'.
Proof.
  intros (soup & t & frame & names & caps & H1 & H2 & H3 & H4 & ->)
         (soup' & t' & frame' & names' & caps' & H1' & H2' & H3' & H4' & ->).
  rewrite H1 in H1'. injection H1' as <-.
  rewrite H2 in H2'. injection H2' as <-.
  rewrite H3 in H3'. injection H3' as <-.
  rewrite H4 in H4'. by injection H4' as <- <-.
Qed.

Lemma scenario_extractable :
  extractable Decimal.to_float Scenario.fresh Scenario.bank_a.
Proof.
  exists [Scenario.assets_table; Scenario.market_cap_table],
    Scenario.market_cap_table,
    {| Html.columns :=
         Html.Index ["Rank"; "Bank name"; "Market cap (US$ billion)"];
       Html.data := [["1"]; ["Bank A"]; ["100.0"]] |},
    ["Bank A"], ["100.0"].
  repeat split; vm_compute; reflexivity.
Qed.

Lemma scenario_convertible :
  convertible Scenario.fresh (F64.dec 93 2) (F64.dec 80 2) (F64.dec 821 1).
Proof.
  exists ["EUR"; "GBP"; "INR"], [F64.dec 93 2; F64.dec 80 2; F64.dec 821 1].
  repeat split; vm_compute; reflexivity.
Qed.

(** X2. When the extraction fails, [main] stops there: it attempts no
    transformation, load or query, changes nothing but the log, and the
    log ends with the failure at the extraction stage. *)
Theorem main_stops_when_extraction_fails to_float w :
  (∀ d, ¬ extractable to_float w d) →
  ∃ w',
    main to_float w = (Return tt, w') ∧
    only_logged w w' ∧
    last (code_log w') = Some (info "ETL Process Failed at Extraction Stage").
Proof.
  intros Hnone.
  destruct (extract_cases to_float
              (with_log (code_log w ++ [info "ETL Process Started"]) w))
    as [(d & entries & Hex & _)|(_ & w1 & Hrun & [entries ->])].
  { exfalso. apply (Hnone d). exact Hex. }
  eexists. split.
  { unfold main. py_step. eapply run_bind; [exact Hrun|]. reflexivity. }
  split; [py_logged|]. py_world. apply last_snoc.
Qed.

(** The page that cannot be fetched meets the hypothesis of X2. *)
Lemma main_stops_when_extraction_fails_witness :
  (∀ d, ¬ extractable Decimal.to_float Runs.offline d) ∧
  ∃ w',
    main Decimal.to_float Runs.offline = (Return tt, w') ∧
    heap w' = [] ∧ Banks_db w' = None ∧
    last (code_log w') = Some (info "ETL Process Failed at Extraction Stage").
Proof.
  assert (Hnone : ∀ d, ¬ extractable Decimal.to_float Runs.offline d).
  { intros d (soup & t & frame & names & caps & Hpage & _). discriminate Hpage. }
  split; [exact Hnone|].
  destruct (main_stops_when_extraction_fails Decimal.to_float Runs.offline Hnone)
    as (w' & Hrun & [entries ->] & Hlast).
  eexists. split; [exact Hrun|]. split; [reflexivity|]. split; [reflexivity|].
  exact Hlast.
Defined.




Lemma cent_page_extractable :
  extractable Decimal.to_float Runs.cent_page
    {| Name := ["Bank A"; "Bank B"];
       MC_USD_Billion := [F64.dec 20 1; F64.dec 201 2];
       MC_GBP_Billion := None;
       MC_EUR_Billion := None;
       MC_INR_Billion := None |}.
Proof.
  exists [Scenario.assets_table; Runs.cent_table], Runs.cent_table,
    {| Html.columns :=
         Html.Index ["Rank"; "Bank name"; "Market cap (US$ billion)"];
       Html.data := [["1"; "2"]; ["Bank A"; "Bank B"]; ["2.0"; "2.01"]] |},
    ["Bank A"; "Bank B"], ["2.0"; "2.01"].
  repeat split; vm_compute; reflexivity.
Qed.

Lemma cent_page_convertible :
  convertible Runs.cent_page (F64.dec 10 1) (F64.dec 80 2) (F64.dec 821 1).
Proof.
  exists ["EUR"; "GBP"; "INR"], [F64.dec 10 1; F64.dec 80 2; F64.dec 821 1].
  repeat split; vm_compute; reflexivity.
Qed.


Lemma verify_logs_run_next w fs :
  io_faults w = None :: fs →
  stdout_faults w = [] →
  verify_logs w =
    (Return true,
     with_console (console w ++
                     [out_text (newline +:+ "Log file contents:");
                      out_log (code_log w)]) (with_io_faults fs w)).
Proof.
  intros Hio Hout. unfold verify_logs. apply run_try_return.
  eapply run_bind; [unfold io; rewrite Hio; reflexivity|]. cbn beta.
  py_step. py_print. py_print. unfold mret, py_ret. f_equal.
  apply world_eq; py_world; rewrite <- ?app_assoc; reflexivity.
Qed.

(** Membership in a list given by its pieces. *)
Ltac py_elem :=
  rewrite ?elem_of_app, ?elem_of_cons; intuition reflexivity.

(** X5. When the database cannot be opened and standard output
    works, [main] skips the queries but still reads back the log and
    records the run as completed: the table is as it was, no query
    result is printed, the error of the load is in the log, and the log
    ends with the entry of success. *)
Theorem main_completes_without_database to_float w d eur gbp inr_ e fs :
  extractable to_float w d →
  convertible w eur gbp inr_ →
  io_faults w = Some e :: fs →
  stdout_faults w = [] →
  ∃ w',
    main to_float w = (Return tt, w') ∧
    heap w' = heap w ++ [enrich eur gbp inr_ d] ∧
    Banks_db w' = Banks_db w ∧
    info_error "Error in database loading: " e ∈ code_log w' ∧
    last (code_log w') = Some (info "ETL Process Completed Successfully") ∧
    ((∃ printed,
        console w' =
          console w ++
            [out_text (newline +:+ "Log file contents:"); out_log printed]) ∨
     (∃ e',
        console w' = console w ++ [out_error "Error reading log file: " e'])).
Proof.
  intros Hd (cs & rs & Hcsv & He & Hg & Hi) Hio Hout.
  destruct (extract_cases to_float
              (with_log (code_log w ++ [info "ETL Process Started"]) w))
    as [(d' & entries & Hex & Hextract)|(Hno & _)]; [|by destruct (Hno d)].
  assert (d' = d) as -> by (eapply extractable_unique; [exact Hex|exact Hd]).
  py_world.
  assert (Hload : ∀ w1 df, io_faults w1 = Some e :: fs →
            (load_to_db (Some df) ≫= λ db_success : bool,
               (if db_success then run_queries ≫= λ _, mret tt else mret tt)
               ≫= λ _, verify_logs ≫= λ _,
                 log_progress "ETL Process Completed Successfully") w1 =
            (verify_logs ≫= λ _,
               log_progress "ETL Process Completed Successfully")
              (with_log (code_log w1 ++
                           [info "Starting database loading process";
                            info_error "Error in database loading: " e])
                        (with_io_faults fs w1))).
  { intros w1 df Hw1.
    eapply run_bind; [by apply load_to_db_connect_fails|]. cbn beta iota.
    eapply run_bind; reflexivity. }
  destruct fs as [|[e'|] fs'].
  - eexists. split.
    { unfold main. py_step. eapply run_bind; [exact Hextract|]. cbn beta iota.
      eapply run_bind.
      { eapply transform_run; py_world; [|exact Hcsv|exact He|exact Hg|exact Hi].
        by rewrite lookup_app_r, Nat.sub_diag. }
      cbn beta iota. rewrite Hload by (py_world; exact Hio).
      eapply run_bind; [by apply verify_logs_run|]. reflexivity. }
    py_world.
    split; [by rewrite insert_app_r_alt, Nat.sub_diag by done|].
    split; [done|]. split; [py_elem|].
    split; [apply last_snoc|]. left. eexists. reflexivity.
  - eexists. split.
    { unfold main. py_step. eapply run_bind; [exact Hextract|]. cbn beta iota.
      eapply run_bind.
      { eapply transform_run; py_world; [|exact Hcsv|exact He|exact Hg|exact Hi].
        by rewrite lookup_app_r, Nat.sub_diag. }
      cbn beta iota. rewrite Hload by (py_world; exact Hio).
      eapply run_bind; [by apply verify_logs_fails|]. reflexivity. }
    py_world.
    split; [by rewrite insert_app_r_alt, Nat.sub_diag by done|].
    split; [done|]. split; [py_elem|].
    split; [apply last_snoc|]. right. eexists. reflexivity.
  - eexists. split.
    { unfold main. py_step. eapply run_bind; [exact Hextract|]. cbn beta iota.
      eapply run_bind.
      { eapply transform_run; py_world; [|exact Hcsv|exact He|exact Hg|exact Hi].
        by rewrite lookup_app_r, Nat.sub_diag. }
      cbn beta iota. rewrite Hload by (py_world; exact Hio).
      eapply run_bind; [by apply verify_logs_run_next|]. reflexivity. }
    py_world.
    split; [by rewrite insert_app_r_alt, Nat.sub_diag by done|].
    split; [done|]. split; [py_elem|].
    split; [apply last_snoc|]. left. eexists. reflexivity.
Qed.

(** The scenario of one bank with a database that cannot be opened
    meets the hypotheses of X5. *)
Lemma main_completes_without_database_witness :
  io_faults Runs.database_down = [Some Runs.unable_to_open] ∧
  ∃ w',
    main Decimal.to_float Runs.database_down = (Return tt, w') ∧
    Banks_db w' = None ∧
    last (code_log w') = Some (info "ETL Process Completed Successfully").
Proof.
  split; [reflexivity|].
  destruct (main_completes_without_database Decimal.to_float Runs.database_down
              Scenario.bank_a (F64.dec 93 2) (F64.dec 80 2) (F64.dec 821 1)
              Runs.unable_to_open [] scenario_extractable scenario_convertible
              eq_refl eq_refl)
    as (w' & Hrun & _ & Hdb & _ & Hlast & _).
  exists w'. split; [exact Hrun|]. split; [exact Hdb|exact Hlast].
Defined.

(** ** The CSV sink *)

Lemma load_to_csv_true w df w1 :
  load_to_csv (Some df) w = (Return true, w1) →
  ∃ d, heap w !! df = Some d ∧
       Largest_banks_data_csv w1 = Some d ∧
       heap w1 = heap w.
Proof. intros Hload. py_cases; by eexists. Qed.

(** X9. An export that reports success has written the DataFrame as it
    then is, with all its columns, in place of whatever the file held;
    exporting it again leaves the same file. *)
Theorem load_to_csv_overwrites w df w1 :
  load_to_csv (Some df) w = (Return true, w1) →
  ∃ d,
    heap w !! df = Some d ∧
    Largest_banks_data_csv w1 = Some d ∧
    ∀ w2, load_to_csv (Some df) w1 = (Return true, w2) →
          Largest_banks_data_csv w2 = Some d.
Proof.
  intros Hfirst. apply load_to_csv_true in Hfirst as (d & Hd & Hfile & Hheap).
  exists d. split; [done|]. split; [done|].
  intros w2 Hsecond.
  apply load_to_csv_true in Hsecond as (d' & Hd' & Hfile' & _).
  rewrite Hheap, Hd in Hd'. by simplify_eq.
Qed.

(** An export of the enriched Dataset of the scenario, over nothing,
    meets the hypothesis of X9. *)
Lemma load_to_csv_overwrites_witness :
  ∃ w1,
    load_to_csv (Some 0%nat) Scenario.transformed = (Return true, w1) ∧
    Largest_banks_data_csv w1 = Some Scenario.bank_a_transformed.
Proof.
  assert (Hrun : load_to_csv (Some 0%nat) Scenario.transformed =
                   (Return true, (load_to_csv (Some 0%nat) Scenario.transformed).2))
    by (vm_compute; reflexivity).
  destruct (load_to_csv_overwrites _ _ _ Hrun) as (d & Hd & Hfile & _).
  eexists. split; [exact Hrun|].
  etrans; [exact Hfile|]. rewrite <- Hd. reflexivity.
Defined.

(** ** Running [transform] again *)

Lemma enrich_enrich eur gbp inr_ d :
  enrich eur gbp inr_ (enrich eur gbp inr_ d) = enrich eur gbp inr_ d.
Proof. reflexivity. Qed.

(** X10. [transform] can be run again on the Dataset it has enriched:
    with the same rate file the second run succeeds too, writes the
    three columns over themselves and leaves every DataFrame as the
    first run left it. *)
Theorem transform_again w df w1 :
  transform (Some df) w = (Return (Some df), w1) →
  ∃ w2,
    transform (Some df) w1 = (Return (Some df), w2) ∧
    heap w2 = heap w1.
Proof.
  intros Hfirst.
  destruct (transform_outcome w df)
    as [(d & cs & rs & eur & gbp & inr_ & w1' & Hd & Hcsv & He & Hg & Hi & Hrun & Hheap)
       |(w1' & Hrun & _)]; rewrite Hrun in Hfirst; [|discriminate].
  injection Hfirst as ->.
  assert (Hsame : exchange_rate_csv w1 = exchange_rate_csv w).
  { erewrite transform_run in Hrun by done. by injection Hrun as <-. }
  assert (Hd1 : heap w1 !! df = Some (enrich eur gbp inr_ d)).
  { rewrite Hheap. apply list_lookup_insert_eq. by eapply lookup_lt_Some. }
  eexists. split.
  - eapply transform_run; [exact Hd1|by rewrite Hsame|done..].
  - py_world. rewrite enrich_enrich. by apply list_insert_id.
Qed.

(** The scenario of one bank meets the hypothesis of X10. *)
Lemma transform_again_witness :
  ∃ w1 w2,
    transform (Some 0%nat) Scenario.extracted = (Return (Some 0%nat), w1) ∧
    transform (Some 0%nat) w1 = (Return (Some 0%nat), w2) ∧
    heap w2 = [Scenario.bank_a_transformed].
Proof.
  assert (Hrun : transform (Some 0%nat) Scenario.extracted =
                   (Return (Some 0%nat), (transform (Some 0%nat) Scenario.extracted).2))
    by (vm_compute; reflexivity).
  destruct (transform_again _ _ _ Hrun) as (w2 & Hagain & Hheap).
  eexists _, w2. split; [exact Hrun|]. split; [exact Hagain|].
  etrans; [exact Hheap|]. vm_compute. reflexivity.
Defined.

(** ** Rates given more than once *)

Lemma dict_fold_app (l1 l2 : list (string * float)) (m : gmap string float) :
  foldl (λ m p, <[p.1 := p.2]> m) m (l1 ++ l2) =
  foldl (λ m p, <[p.1 := p.2]> m) (foldl (λ m p, <[p.1 := p.2]> m) m l1) l2.
Proof. apply foldl_app. Qed.

Lemma dict_fold_keeps (cs : list string) (rs : list float)
    (m : gmap string float) k :
  k ∉ cs →
  foldl (λ m p, <[p.1 := p.2]> m) m (zip cs rs) !! k = m !! k.
Proof.
  revert rs m. induction cs as [|c cs IH]; intros [|r rs] m Hk; simpl; auto.
  apply not_elem_of_cons in Hk as [Hne Hk].
  rewrite IH by done. by apply lookup_insert_ne.
Qed.

Lemma dict_last_row_wins cs1 rs1 k v cs2 rs2 :
  length cs1 = length rs1 →
  k ∉ cs2 →
  dict (cs1 ++ k :: cs2) (rs1 ++ v :: rs2) !! k = Some v.
Proof.
  intros Hlen Hk. unfold dict.
  rewrite zip_with_app by done. rewrite dict_fold_app. simpl.
  rewrite dict_fold_keeps by done. apply lookup_insert_eq.
Qed.

(** X11. When the rate file lists a currency more than once,
    [transform] converts with the rate of its last row. *)
Theorem transform_uses_the_last_rate w df d cs1 rs1 k v cs2 rs2 w' :
  heap w !! df = Some d →
  exchange_rate_csv w =
    Return {| Currency := Some (cs1 ++ k :: cs2);
              Rate := Some (rs1 ++ v :: rs2) |} →
  length cs1 = length rs1 →
  k ∉ cs2 →
  transform (Some df) w = (Return (Some df), w') →
  ∃ d',
    heap w' !! df = Some d' ∧
    (k = "EUR" → MC_EUR_Billion d' = Some (convert v (MC_USD_Billion d))) ∧
    (k = "GBP" → MC_GBP_Billion d' = Some (convert v (MC_USD_Billion d))) ∧
    (k = "INR" → MC_INR_Billion d' = Some (convert v (MC_USD_Billion d))).
Proof.
  intros Hd Hcsv Hlen Hk Hrun.
  pose proof (dict_last_row_wins cs1 rs1 k v cs2 rs2 Hlen Hk) as Hlast.
  destruct (transform_outcome w df)
    as [(d0 & cs & rs & eur & gbp & inr_ & w1 & Hd0 & Hcsv0 & He & Hg & Hi & Hrun0 & Hheap)
       |(w1 & Hrun0 & _)]; rewrite Hrun0 in Hrun; [|discriminate].
  injection Hrun as ->. rewrite Hcsv in Hcsv0. injection Hcsv0 as <- <-.
  rewrite Hd in Hd0. injection Hd0 as <-.
  exists (enrich eur gbp inr_ d). split.
  { rewrite Hheap. apply list_lookup_insert_eq. by eapply lookup_lt_Some. }
  cbn [enrich MC_EUR_Billion MC_GBP_Billion MC_INR_Billion].
  repeat split; intros ->; rewrite Hlast in *; by simplify_eq.
Qed.

(** A rate file with two rows for the euro meets the hypotheses of
    X11. *)
Lemma transform_uses_the_last_rate_witness :
  ∃ w' d',
    transform (Some 0%nat) Runs2.two_euro_rows = (Return (Some 0%nat), w') ∧
    heap w' !! 0%nat = Some d' ∧
    MC_EUR_Billion d' = Some [F64.dec 930 1].
Proof.
  assert (Hrun : transform (Some 0%nat) Runs2.two_euro_rows =
                   (Return (Some 0%nat),
                    (transform (Some 0%nat) Runs2.two_euro_rows).2))
    by (vm_compute; reflexivity).
  assert (Hk : "EUR" ∉ ["INR"]).
  { intros H. apply list_elem_of_singleton in H. discriminate H. }
  destruct (transform_uses_the_last_rate Runs2.two_euro_rows 0%nat
              Scenario.bank_a ["EUR"; "GBP"] [F64.dec 90 2; F64.dec 80 2]
              "EUR" (F64.dec 93 2) ["INR"] [F64.dec 821 1] _
              eq_refl eq_refl eq_refl Hk Hrun)
    as (d' & Hd' & Heur & _).
  eexists _, d'. split; [exact Hrun|]. split; [exact Hd'|].
  etrans; [exact (Heur eq_refl)|]. vm_compute. reflexivity.
Defined.

(** ** The third query *)

Lemma ltb_asym x y : F64.ltb x y = true → F64.ltb y x = false.
Proof.
  intros Hxy. destruct (F64.ltb y x) eqn:Hyx; [|done].
  pose proof (ltb_trans _ _ _ Hxy Hyx) as H. by rewrite ltb_irrefl in H.
Qed.

Lemma before_desc_total a b :
  Sql.before_desc a b = false → Sql.before_desc b a = true.
Proof.
  destruct a as [x|], b as [y|]; simpl; try done.
  intros H. apply negb_false_iff in H. by rewrite (ltb_asym _ _ H).
Qed.

Lemma in_order_nil : in_order [].
Proof. intros i a b H. by rewrite lookup_nil in H. Qed.

Lemma in_order_singleton r : in_order [r].
Proof. intros i a b _ H. by destruct i. Qed.

Lemma in_order_cons r r' rows :
  Sql.before_desc (Sql.q3_MC_EUR_Billion r) (Sql.q3_MC_EUR_Billion r') = true →
  in_order (r' :: rows) → in_order (r :: r' :: rows).
Proof.
  intros Hhead Htail [|i] a b Ha Hb; simpl in *.
  - by simplify_eq.
  - by eapply Htail.
Qed.

Lemma in_order_tail r rows : in_order (r :: rows) → in_order rows.
Proof. intros H i a b Ha Hb. by apply (H (S i)). Qed.

Lemma in_order_head r r' rows :
  in_order (r :: r' :: rows) →
  Sql.before_desc (Sql.q3_MC_EUR_Billion r) (Sql.q3_MC_EUR_Billion r') = true.
Proof. intros H. by apply (H 0%nat). Qed.

Lemma insert_desc_in_order r rows :
  in_order rows → in_order (Sql.insert_desc r rows).
Proof.
  induction rows as [|r' rows IH]; intros Hrows; simpl.
  - apply in_order_singleton.
  - destruct (Sql.before_desc _ _) eqn:Hbefore.
    + by apply in_order_cons.
    + specialize (IH (in_order_tail _ _ Hrows)).
      destruct rows as [|r'' rows]; simpl in *.
      * apply in_order_cons; [by apply before_desc_total|apply in_order_singleton].
      * destruct (Sql.before_desc (Sql.q3_MC_EUR_Billion r)
                    (Sql.q3_MC_EUR_Billion r'')).
        -- apply in_order_cons; [by apply before_desc_total|done].
        -- apply in_order_cons; [by eapply in_order_head|done].
Qed.

Lemma insert_desc_perm r rows : Sql.insert_desc r rows ≡ₚ r :: rows.
Proof.
  induction rows as [|r' rows IH]; simpl; [done|].
  destruct (Sql.before_desc _ _); [done|].
  rewrite IH. apply Permutation_swap.
Qed.

Lemma order_desc_in_order rows : in_order (Sql.order_desc rows).
Proof.
  induction rows as [|r rows IH]; simpl; [apply in_order_nil|].
  by apply insert_desc_in_order.
Qed.

Lemma order_desc_perm rows : Sql.order_desc rows ≡ₚ rows.
Proof.
  induction rows as [|r rows IH]; simpl; [done|].
  by rewrite insert_desc_perm, IH.
Qed.

(** X12. The third query returns one row for each row of the table,
    with the bank's name, its EUR market cap and that market cap as a
    percentage of the largest, rounded to two decimals; the rows come
    by descending market cap, those without one last. *)
Theorem query3_lists_every_bank_in_order (t : Sql.table) (eur : list Sql.real) :
  Sql.MC_EUR_Billion t = Some eur →
  ∃ rows,
    Sql.query3 t = Return rows ∧
    rows ≡ₚ zip_with (query3_row_of (Sql.MAX eur)) (Sql.Name t) eur ∧
    in_order rows ∧
    (length (Sql.Name t) = length eur → length rows = length eur) ∧
    (∀ r, r ∈ rows →
          rounded_cell
            (Sql.mul (Sql.div (Sql.q3_MC_EUR_Billion r) (Sql.MAX eur))
                     (Some (F64.of_Z 100)))
            (Sql.Percent_of_Largest r)).
Proof.
  intros Heur. eexists. split; [unfold Sql.query3; by rewrite Heur|].
  split; [apply order_desc_perm|]. split; [apply order_desc_in_order|].
  split.
  - intros Hlen. rewrite order_desc_perm, length_zip_with. lia.
  - intros r Hr. rewrite order_desc_perm in Hr.
    apply elem_of_zip_with in Hr as (name & x & -> & _ & _).
    apply ROUND2_rounded_cell.
Qed.

(** A table with the market caps 184.57, none and 200.0 meets the
    hypothesis of X12: 184.57 is 92.285 per cent of 200.0 and is
    reported as 92.29; the bank without a market cap comes last. *)
Lemma query3_lists_every_bank_in_order_witness :
  ∃ rows,
    Sql.query3 Scenario.percent_banks = Return rows ∧
    rows =
      [{| Sql.q3_Name := "Bank C";
          Sql.q3_MC_EUR_Billion := Some (F64.dec 2000 1);
          Sql.Percent_of_Largest := Some (F64.dec 1000 1) |};
       {| Sql.q3_Name := "Bank A";
          Sql.q3_MC_EUR_Billion := Some (F64.dec 18457 2);
          Sql.Percent_of_Largest := Some (F64.dec 9229 2) |};
       {| Sql.q3_Name := "Bank B";
          Sql.q3_MC_EUR_Billion := None;
          Sql.Percent_of_Largest := None |}] ∧
    in_order rows.
Proof.
  destruct (query3_lists_every_bank_in_order Scenario.percent_banks
              _ eq_refl)
    as (rows & Hq & _ & Horder & _).
  exists rows. split; [exact Hq|]. split; [|exact Horder].
  assert (Hrows : Return rows = Sql.query3 Scenario.percent_banks)
    by (symmetry; exact Hq).
  vm_compute in Hrows. injection Hrows as ->. vm_compute. reflexivity.
Defined.

(** ** Missing values in the aggregates *)

Lemma values_of_column col :
  Sql.values (Sql.of_column col) = filter (λ x, F64.is_nan x = false) col.
Proof.
  unfold Sql.values, Sql.of_column.
  induction col as [|x col IH]; [done|].
  cbn [fmap list_fmap omap list_omap]. unfold Sql.of_float at 1.
  destruct (F64.is_nan x) eqn:Hx; cbn [id].
  - rewrite filter_cons_False by (by rewrite Hx). apply IH.
  - rewrite filter_cons_True by done. f_equal. apply IH.
Qed.

Lemma values_filter_idemp col :
  Sql.values (Sql.of_column (filter (λ x, F64.is_nan x = false) col)) =
  Sql.values (Sql.of_column col).
Proof.
  rewrite !values_of_column. apply list_filter_filter_l. auto.
Qed.


(** ** The reporter *)

(** Every path up to the first [print], one goal each. *)
Ltac py_paths :=
  repeat match goal with
         | |- context [match ?x with _ => _ end] =>
             lazymatch x with
             | io_faults _ => idtac
             | Banks_db _ => idtac
             | ?f _ => is_var f
             | _ => is_var x
             end;
             destruct x eqn:?; simplify_eq; py_world
         end.

(** The next [print]: it returns or it raises. *)
Ltac py_prints :=
  repeat match goal with
         | |- context [print ?o ?w] =>
             let fs := fresh "fs" in
             let Hs := fresh "Hs" in
             let Hp := fresh "Hp" in
             let e := fresh "e" in
             let He := fresh "He" in
             destruct (print_cases o w) as [(fs & Hs & Hp)|(e & fs & He & Hp)];
             rewrite Hp; clear Hp; cbn beta iota; py_world
         end.

Ltac py_suffix :=
  repeat match goal with
         | Hs : ?a `suffix_of` ?b, He : Some ?e ∈ ?a |- _ =>
             apply (suffix_elem _ _ _ Hs) in He; clear Hs
         end.

(** The report cut short after [n] lines. *)
Ltac py_cut n :=
  eexists _, _, _, _, n; do 5 (split; [first [reflexivity|eassumption]|]);
  split; [lia|]; rewrite <- ?app_assoc; reflexivity.

(** X14. [run_queries] prints no result before all three queries have
    succeeded.  Either the table is there, the three queries succeed on
    it, and their results are printed in order and returned; or
    [run_queries] returns absent with the error at the end of the log,
    and then it has printed nothing, unless the error is one of
    standard output, raised after the queries had all succeeded and
    the first lines of the report were out. *)
Theorem run_queries_prints_after_the_queries w :
  ∃ w',
    (∃ t q1 q2 q3,
       Banks_db w = Some t ∧
       Sql.query1 t = Return q1 ∧
       Sql.query2 t = Return q2 ∧
       Sql.query3 t = Return q3 ∧
       run_queries w =
         (Return (Some {| Sql.Market_Cap_Analysis := q1;
                          Sql.Average_by_Currency := q2;
                          Sql.Bank_Size_Comparison := q3 |}), w') ∧
       console w' = console w ++ report q1 q2 q3) ∨
    (∃ e,
       run_queries w = (Return None, w') ∧
       last (code_log w') = Some (info_error "Error in database queries: " e) ∧
       (console w' = console w ∨
        ∃ t q1 q2 q3 n,
          Banks_db w = Some t ∧
          Sql.query1 t = Return q1 ∧
          Sql.query2 t = Return q2 ∧
          Sql.query3 t = Return q3 ∧
          Some e ∈ stdout_faults w ∧
          (n < 6)%nat ∧
          console w' = console w ++ take n (report q1 q2 q3))).
Proof.
  unfold run_queries, read_sql_query, log_progress, report.
  generalize Sql.query1, Sql.query2, Sql.query3. intros f1 f2 f3.
  unfold try_except, logging_info, io, modify, gets, lift, raise,
    mbind, mret, py_bind, py_ret.
  py_world. py_paths; py_prints; py_suffix; eexists;
    first
      [ left; eexists _, _, _, _; do 4 (split; [first [reflexivity|eassumption]|]);
        split; [reflexivity|]; py_world; rewrite <- ?app_assoc; reflexivity
      | right; eexists; split; [reflexivity|]; py_world;
        split; [apply last_snoc|];
        first
          [ left; reflexivity
          | right; py_cut 1%nat | right; py_cut 2%nat | right; py_cut 3%nat
          | right; py_cut 4%nat | right; py_cut 5%nat ] ].
Qed.
